(** * magic_feishu_bots: the webhook sender and the feed poller

    A shallow embedding of [src/feishubot_demo.py] and
    [src/latest_paper_bot.py], and the properties of the signing scheme, of
    the feed filter and of the polling loop established on it.

    Conventions of the embedding.
    - A Python [str] is a [string]: the bytes of its UTF-8 encoding.  String
      concatenation is concatenation of the encodings and
      [s.encode("utf-8")] reads the bytes off ([bytes_of_str]).
    - [bytes] objects are lists of [byte].
    - Python integers are [Z]; the 32-bit words of SHA-256 are [Z] reduced
      modulo [2^32] after every addition and left shift.
    - Exceptions are the [Raise] results of the [result] type.
    - The outside world is a family of oracles: the readings of the two
      clocks, what the feed holds at each fetch, and what the endpoint does
      with each POST.  A run is a function of them and of the state.
    - Log lines and the sleep between two cycles are left out; an
      expression evaluated only to be logged is kept where it can raise. *)

From Stdlib Require Import ZArith List String Ascii Lia Bool.
From Stdlib.Strings Require Import Byte.
From stdpp Require Import base option list gmap strings.

Import ListNotations.
Local Open Scope Z_scope.
Local Open Scope list_scope.

(** ** Bytes and strings *)

Definition bytes := list byte.

Definition Z_of_byte (b : byte) : Z := Z.of_N (Byte.to_N b).

Definition byte_of_Z (z : Z) : byte :=
  match Byte.of_N (Z.to_N (z mod 256)) with
  | Some b => b
  | None => x00
  end.

(** [s.encode("utf-8")] *)
Definition bytes_of_str (s : string) : bytes := list_byte_of_string s.

(** [b.decode("utf-8")], used on ASCII output only *)
Definition str_of_bytes (b : bytes) : string := string_of_list_byte b.

(** The character with a given code, for the literals that hold a quote. *)
Definition chr (n : nat) : string := String (ascii_of_nat n) EmptyString.

Definition LF : string := chr 10.
Definition DQUOTE : string := chr 34.

(** ** [hashlib.sha256] (FIPS 180-4) *)

Module Sha256.

Definition mask32 : Z := 4294967295.

Definition w32 (x : Z) : Z := Z.land x mask32.

Definition add32 (x y : Z) : Z := w32 (x + y).

Definition rotr (n x : Z) : Z :=
  Z.lor (Z.shiftr x n) (w32 (Z.shiftl x (32 - n))).

Definition shr (n x : Z) : Z := Z.shiftr x n.

Definition Ch (x y z : Z) : Z :=
  Z.lxor (Z.land x y) (Z.land (Z.lxor x mask32) z).

Definition Maj (x y z : Z) : Z :=
  Z.lxor (Z.lxor (Z.land x y) (Z.land x z)) (Z.land y z).

Definition bsig0 (x : Z) : Z := Z.lxor (Z.lxor (rotr 2 x) (rotr 13 x)) (rotr 22 x).
Definition bsig1 (x : Z) : Z := Z.lxor (Z.lxor (rotr 6 x) (rotr 11 x)) (rotr 25 x).
Definition ssig0 (x : Z) : Z := Z.lxor (Z.lxor (rotr 7 x) (rotr 18 x)) (shr 3 x).
Definition ssig1 (x : Z) : Z := Z.lxor (Z.lxor (rotr 17 x) (rotr 19 x)) (shr 10 x).

(** The constants are fractional parts of roots of the first primes
    (FIPS 180-4, sections 4.2.2 and 5.3.3). *)
Definition primes : list Z :=
  [2; 3; 5; 7; 11; 13; 17; 19; 23; 29; 31; 37; 41; 43; 47; 53;
   59; 61; 67; 71; 73; 79; 83; 89; 97; 101; 103; 107; 109; 113; 127; 131;
   137; 139; 149; 151; 157; 163; 167; 173; 179; 181; 191; 193; 197; 199; 211; 223;
   227; 229; 233; 239; 241; 251; 257; 263; 269; 271; 277; 281; 283; 293; 307; 311].

(** The integer cube root below [2^bits], one bit at a time. *)
Fixpoint cbrt_go (bits : nat) (n r : Z) : Z :=
  match bits with
  | O => r
  | S b =>
      let r' := r + 2 ^ Z.of_nat b in
      cbrt_go b n (if r' * r' * r' <=? n then r' else r)
  end.

Definition frac_cbrt32 (p : Z) : Z := w32 (cbrt_go 36 (p * 2 ^ 96) 0).

Definition frac_sqrt32 (p : Z) : Z := w32 (Z.sqrt (p * 2 ^ 64)).

Definition K : list Z := Eval vm_compute in map frac_cbrt32 primes.

Definition H0 : list Z := Eval vm_compute in map frac_sqrt32 (firstn 8 primes).

(** Big-endian encoding of [x] on [n] bytes. *)
Fixpoint be_bytes (n : nat) (x : Z) : list Z :=
  match n with
  | O => []
  | S n' => Z.land (Z.shiftr x (8 * Z.of_nat n')) 255 :: be_bytes n' x
  end.

Definition be_word (bs : list Z) : Z :=
  fold_left (fun acc b => Z.lor (Z.shiftl acc 8) b) bs 0.

(** Padding: the bit 1, zeros up to 56 modulo 64, the bit length on 8 bytes. *)
Definition pad (msg : list Z) : list Z :=
  let len := Z.of_nat (length msg) in
  let zeros := Z.to_nat ((55 - len) mod 64) in
  msg ++ 128 :: repeat 0 zeros ++ be_bytes 8 (8 * len).

(** Cut a list into pieces of [n] elements ([fuel] bounds the number of
    pieces). *)
Fixpoint chunks {A} (fuel n : nat) (l : list A) : list (list A) :=
  match fuel with
  | O => []
  | S fuel' =>
      match l with
      | [] => []
      | _ => firstn n l :: chunks fuel' n (skipn n l)
      end
  end.

Definition words_of_block (blk : list Z) : list Z :=
  map be_word (chunks 16 4 blk).

(** Message schedule.  [rw] holds [W(t-1), W(t-2), ..., W(0)]. *)
Fixpoint schedule (n : nat) (rw : list Z) : list Z :=
  match n with
  | O => rw
  | S n' =>
      let wt :=
        add32 (add32 (add32 (ssig1 (nth 1 rw 0)) (nth 6 rw 0))
                     (ssig0 (nth 14 rw 0)))
              (nth 15 rw 0) in
      schedule n' (wt :: rw)
  end.

Definition message_schedule (blk : list Z) : list Z :=
  rev (schedule 48 (rev (words_of_block blk))).

Record regs := Regs { ra : Z; rb : Z; rc : Z; rd : Z; re : Z; rf : Z; rg : Z; rh : Z }.

Definition round (r : regs) (kw : Z * Z) : regs :=
  let '(k, w) := kw in
  let t1 := add32 (add32 (add32 (add32 (rh r) (bsig1 (re r))) (Ch (re r) (rf r) (rg r))) k) w in
  let t2 := add32 (bsig0 (ra r)) (Maj (ra r) (rb r) (rc r)) in
  Regs (add32 t1 t2) (ra r) (rb r) (rc r) (add32 (rd r) t1) (re r) (rf r) (rg r).

Definition regs_of (h : list Z) : regs :=
  Regs (nth 0 h 0) (nth 1 h 0) (nth 2 h 0) (nth 3 h 0)
       (nth 4 h 0) (nth 5 h 0) (nth 6 h 0) (nth 7 h 0).

Definition list_of (r : regs) : list Z :=
  [ra r; rb r; rc r; rd r; re r; rf r; rg r; rh r].

Definition compress (h : list Z) (blk : list Z) : list Z :=
  let r := fold_left round (combine K (message_schedule blk)) (regs_of h) in
  map (fun p => add32 (fst p) (snd p)) (combine h (list_of r)).

Definition hash_Z (msg : list Z) : list Z :=
  let padded := pad msg in
  let blocks := chunks (length padded) 64 padded in
  concat (map (be_bytes 4) (fold_left compress blocks H0)).

(** [hashlib.sha256(data).digest()] *)
Definition sha256 (data : bytes) : bytes :=
  map byte_of_Z (hash_Z (map Z_of_byte data)).

Definition block_size : nat := 64.
Definition digest_size : nat := 32.

(** A hash object: what it has been fed so far. *)
Record hash_obj := HashObj { fed : bytes }.

Definition new : hash_obj := HashObj [].
Definition update (h : hash_obj) (data : bytes) : hash_obj := HashObj (fed h ++ data).
Definition copy (h : hash_obj) : hash_obj := h.
Definition digest (h : hash_obj) : bytes := sha256 (fed h).

End Sha256.

(** ** [hmac] (RFC 2104), after the [HMAC] class of the Python library *)

Module Hmac.

Definition xor_with (c : Z) (key : bytes) : bytes :=
  map (fun b => byte_of_Z (Z.lxor (Z_of_byte b) c)) key.

(** [key.ljust(blocksize, b'\0')] *)
Definition ljust (n : nat) (key : bytes) : bytes :=
  key ++ repeat x00 (n - length key).

Record HMAC := { _inner : Sha256.hash_obj; _outer : Sha256.hash_obj }.

Definition update (h : HMAC) (msg : bytes) : HMAC :=
  {| _inner := Sha256.update (_inner h) msg; _outer := _outer h |}.

(** [hmac.new(key, msg, digestmod=hashlib.sha256)]; [msg] defaults to
    [None], and then nothing is fed to the inner hash. *)
Definition new (key : bytes) (msg : option bytes) : HMAC :=
  let outer := Sha256.new in
  let inner := Sha256.new in
  let key :=
    if (Sha256.block_size <? length key)%nat then Sha256.sha256 key else key in
  let key := ljust Sha256.block_size key in
  let outer := Sha256.update outer (xor_with 0x5C key) in
  let inner := Sha256.update inner (xor_with 0x36 key) in
  let self := {| _inner := inner; _outer := outer |} in
  match msg with
  | Some m => update self m
  | None => self
  end.

Definition digest (self : HMAC) : bytes :=
  let h := Sha256.copy (_outer self) in
  let h := Sha256.update h (Sha256.digest (_inner self)) in
  Sha256.digest h.

(** The function of RFC 2104: [H((K' xor opad) || H((K' xor ipad) || data))]. *)
Definition HMAC_SHA256 (key data : bytes) : bytes :=
  let k' :=
    ljust 64 (if (64 <? length key)%nat then Sha256.sha256 key else key) in
  Sha256.sha256 (xor_with 0x5C k' ++ Sha256.sha256 (xor_with 0x36 k' ++ data)).

End Hmac.

(** ** [base64.b64encode] (RFC 4648) *)

Module Base64.

Definition alphabet : string :=
  "ABCDEFGHIJKLMNOPQRSTUVWXYZabcdefghijklmnopqrstuvwxyz0123456789+/".

Definition sextet (z : Z) : byte :=
  match String.get (Z.to_nat (Z.land z 63)) alphabet with
  | Some c => byte_of_ascii c
  | None => x00
  end.

Definition pad_char : byte := byte_of_ascii "=".

Fixpoint encode (l : list Z) : bytes :=
  match l with
  | a :: b :: c :: rest =>
      let n := Z.lor (Z.lor (Z.shiftl a 16) (Z.shiftl b 8)) c in
      sextet (Z.shiftr n 18) :: sextet (Z.shiftr n 12)
        :: sextet (Z.shiftr n 6) :: sextet n :: encode rest
  | [a; b] =>
      let n := Z.lor (Z.shiftl a 16) (Z.shiftl b 8) in
      [sextet (Z.shiftr n 18); sextet (Z.shiftr n 12); sextet (Z.shiftr n 6); pad_char]
  | [a] =>
      let n := Z.shiftl a 16 in
      [sextet (Z.shiftr n 18); sextet (Z.shiftr n 12); pad_char; pad_char]
  | [] => []
  end.

Definition b64encode (data : bytes) : bytes := encode (map Z_of_byte data).

End Base64.

(** ** [str(n)] for an integer *)

Definition digit_char (d : Z) : ascii := ascii_of_nat (48 + Z.to_nat d).

Fixpoint decimal_go (fuel : nat) (n : Z) (acc : string) : string :=
  match fuel with
  | O => acc
  | S fuel' =>
      let acc' := String (digit_char (n mod 10)) acc in
      if n / 10 =? 0 then acc' else decimal_go fuel' (n / 10) acc'
  end.

Definition decimal (n : Z) : string :=
  decimal_go (S (Z.to_nat (Z.log2 n))) n EmptyString.

Definition str_of_int (z : Z) : string :=
  if z <? 0 then ("-" +:+ decimal (- z))%string else decimal z.

(** ** Python values, objects and exceptions *)

Inductive exn :=
| ConnectionError (msg : string)   (* requests: transport failures *)
| HTTPError (msg : string)         (* requests: raise_for_status *)
| JSONDecodeError (msg : string)   (* requests: response.json() *)
| AttributeError (msg : string)
| TypeError (msg : string)
| ValueError (msg : string)
| OverflowError (msg : string)
| RecursionError (msg : string)
| LocationParseError (msg : string).   (* urllib3: not a RequestException *)

(** [isinstance(e, requests.RequestException)] *)
Definition is_RequestException (e : exn) : bool :=
  match e with
  | ConnectionError _ | HTTPError _ | JSONDecodeError _ => true
  | _ => false
  end.

(** [str(e)] *)
Definition str_of_exn (e : exn) : string :=
  match e with
  | ConnectionError m | HTTPError m | JSONDecodeError m
  | AttributeError m | TypeError m | ValueError m | OverflowError m
  | RecursionError m | LocationParseError m => m
  end.

Inductive result (A : Type) :=
| Ok (a : A)
| Raise (e : exn).
Arguments Ok {A} a.
Arguments Raise {A} e.

(** JSON data: the immutable literals the payloads are built from and the
    parsed response bodies. *)
#[warnings="-register-all"]
Inductive json :=
| JNull
| JBool (b : bool)
| JNum (n : Z)
| JStr (s : string)
| JArr (items : list json)
| JObj (fields : list (string * json)).

(** Objects that the code shares and mutates live in a store, addressed by
    their position: the top-level payload dictionaries ([payload.update]) and
    the set of sent ids ([sent_entries.add]). *)
Definition loc := nat.

Inductive obj :=
| ODict (d : gmap string json)
| OSet (s : gset string).

(** What a returned dictionary holds: data, or a reference to a stored
    object. *)
Inductive value :=
| VStr (s : string)
| VJson (j : json)
| VRef (l : loc).

(** What [_send_message] returns: the parsed response body, or the error
    dictionary it builds. *)
Inductive reply :=
| RJson (j : json)
| RDict (d : gmap string value).

(** ** The outside world *)

(** What [response.json()] does with the body of a response, which the
    endpoint chooses.  [JsonBody j]: the call returns the value [j].
    [NotJson msg]: the body is not JSON and the call raises the
    [JSONDecodeError] of requests with the message [msg].  [Unreadable e]:
    the decoder raises another exception [e]; so it does on a body that is
    JSON but holds an integer of more than 4300 digits ([ValueError], from
    the limit of the interpreter on the conversion of integers) or a nesting
    that is too deep ([RecursionError]).  Such a body is an [Unreadable],
    not a [JsonBody]: no value is returned for it. *)
Inductive body :=
| JsonBody (j : json)
| NotJson (msg : string)
| Unreadable (e : exn).

Record response := {
  status_code : Z;
  reason : string;
  url : string;
  content : body
}.

(** [requests.post] returns a response, or raises: an exception of
    [requests] (a [ConnectionError], a timeout, ...: all of them
    [RequestException]s), or one that [requests] lets through, such as the
    [LocationParseError] of urllib3. *)
Inductive post_outcome :=
| PostRaises (e : exn)
| PostReturns (r : response).

Record request := {
  req_url : string;
  req_headers : list (string * string);
  req_json : gmap string json
}.

Record state := {
  heap : list obj;
  clock_reads : nat;          (* calls of time.time() so far *)
  posts : list request;       (* requests handed to requests.post, oldest first *)
  delivered : list string     (* ids whose card went to send_card_message, oldest first *)
}.

Definition set_heap (h : list obj) (s : state) : state :=
  {| heap := h; clock_reads := clock_reads s; posts := posts s; delivered := delivered s |}.

(** ** State and exceptions *)

Definition M (A : Type) : Type := state -> result A * state.

Definition ret {A} (a : A) : M A := fun s => (Ok a, s).

Definition raise {A} (e : exn) : M A := fun s => (Raise e, s).

Definition bind {A B} (m : M A) (k : A -> M B) : M B :=
  fun s =>
    match m s with
    | (Ok a, s') => k a s'
    | (Raise e, s') => (Raise e, s')
    end.

Definition lift {A} (r : result A) : M A := fun s => (r, s).

(** [try: m  except <class> as e: handler e] *)
Definition try_except {A} (m : M A) (class : exn -> bool) (handler : exn -> M A) : M A :=
  fun s =>
    match m s with
    | (Ok a, s') => (Ok a, s')
    | (Raise e, s') => if class e then handler e s' else (Raise e, s')
    end.

Notation "'let*' x ':=' m 'in' k" := (bind m (fun x => k))
  (at level 10, x name, m at level 100, k at level 200).
Notation "m ';;' k" := (bind m (fun _ => k))
  (at level 100, k at level 200, right associativity).

(** ** The store *)

(** [{...}]: a new dictionary object *)
Definition new_dict (d : gmap string json) : M loc :=
  fun s => (Ok (length (heap s)), set_heap (heap s ++ [ODict d]) s).

(** [set()] *)
Definition new_set : M loc :=
  fun s => (Ok (length (heap s)), set_heap (heap s ++ [OSet ∅]) s).

Definition read_dict (l : loc) : M (gmap string json) :=
  fun s =>
    match heap s !! l with
    | Some (ODict d) => (Ok d, s)
    | _ => (Raise (TypeError "not a dict"), s)
    end.

(** [d.update(other)]: the keys of [other] are set in [d], in place. *)
Definition dict_update (l : loc) (other : gmap string json) : M unit :=
  fun s =>
    match heap s !! l with
    | Some (ODict d) => (Ok tt, set_heap (<[l := ODict (other ∪ d)]> (heap s)) s)
    | _ => (Raise (TypeError "not a dict"), s)
    end.

(** [x in s] *)
Definition set_contains (l : loc) (x : string) : M bool :=
  fun s =>
    match heap s !! l with
    | Some (OSet xs) => (Ok (bool_decide (x ∈ xs)), s)
    | _ => (Raise (TypeError "not a set"), s)
    end.

(** [s.add(x)] *)
Definition set_add (l : loc) (x : string) : M unit :=
  fun s =>
    match heap s !! l with
    | Some (OSet xs) => (Ok tt, set_heap (<[l := OSet ({[x]} ∪ xs)]> (heap s)) s)
    | _ => (Raise (TypeError "not a set"), s)
    end.

(** ** [FeishuRobotSender]: the methods both files share

    [_generate_sign] and [_send_message] have the same text in
    [feishubot_demo.py] and [latest_paper_bot.py] (the second one logs the
    failure as well). *)

Record FeishuRobotSender := {
  webhook_url : string;
  secret : option string
}.

Section Sender.

(** [int(time.time())] at each read. *)
Variable time_time : nat -> Z.
(** What the endpoint does with each POST. *)
Variable http : nat -> post_outcome.

Definition clock : M Z :=
  fun s =>
    (Ok (time_time (clock_reads s)),
     {| heap := heap s; clock_reads := S (clock_reads s);
        posts := posts s; delivered := delivered s |}).

(** [requests.post(url, json=payload, headers=...)]: the request is recorded,
    then the call returns the response or raises what the outcome says, a
    [RequestException] or not. *)
Definition requests_post (url : string) (payload : loc) (headers : list (string * string))
  : M response :=
  let* d := read_dict payload in
  fun s =>
    let s' := {| heap := heap s; clock_reads := clock_reads s;
                 posts := posts s ++ [{| req_url := url; req_headers := headers; req_json := d |}];
                 delivered := delivered s |} in
    match http (length (posts s)) with
    | PostRaises e => (Raise e, s')
    | PostReturns r => (Ok r, s')
    end.

(** [response.raise_for_status()] of requests: an [HTTPError] for the
    statuses 400 to 599, nothing otherwise. *)
Definition raise_for_status (r : response) : M unit :=
  if (400 <=? status_code r) && (status_code r <? 500) then
    raise (HTTPError (str_of_int (status_code r) +:+ " Client Error: " +:+ reason r
                        +:+ " for url: " +:+ url r))
  else if (500 <=? status_code r) && (status_code r <? 600) then
    raise (HTTPError (str_of_int (status_code r) +:+ " Server Error: " +:+ reason r
                        +:+ " for url: " +:+ url r))
  else ret tt.

(** [response.json()]: the decoded value; for a body that is not JSON, the
    [JSONDecodeError] of requests, a [RequestException] (requests 2.27 and
    later); whatever else the decoder raises ([ValueError],
    [RecursionError]) comes out as it is, and is no [RequestException]. *)
Definition response_json (r : response) : M json :=
  match content r with
  | JsonBody j => ret j
  | NotJson msg => raise (JSONDecodeError msg)
  | Unreadable e => raise e
  end.

(** [not self.secret] *)
Definition no_secret (self : FeishuRobotSender) : bool :=
  match secret self with
  | None => true
  | Some EmptyString => true
  | Some _ => false
  end.

Definition _generate_sign (self : FeishuRobotSender) : M (gmap string json) :=
  match secret self with
  | None => ret ∅
  | Some EmptyString => ret ∅
  | Some sec =>
      let* timestamp := clock in
      let string_to_sign := str_of_int timestamp +:+ LF +:+ sec in
      let hmac_code := Hmac.digest (Hmac.new (bytes_of_str string_to_sign) None) in
      let sign := str_of_bytes (Base64.b64encode hmac_code) in
      ret {[ "timestamp" := JStr (str_of_int timestamp); "sign" := JStr sign ]}
  end.

Definition _send_message (self : FeishuRobotSender) (payload : loc) : M reply :=
  let* sign_params := _generate_sign self in
  dict_update payload sign_params ;;
  try_except
    (let* response :=
       requests_post (webhook_url self) payload [("Content-Type", "application/json")] in
     raise_for_status response ;;
     let* j := response_json response in
     ret (RJson j))
    is_RequestException
    (fun e => ret (RDict {[ "error" := VStr (str_of_exn e); "payload" := VRef payload ]})).

End Sender.

(** ** [feishubot_demo.py] *)

Module Demo.
Section Demo.

Variable time_time : nat -> Z.
Variable http : nat -> post_outcome.

(** [f'<at user_id="{user_id}"></at>'] *)
Definition at_token (user_id : string) : string :=
  "<at user_id=" +:+ DQUOTE +:+ user_id +:+ DQUOTE +:+ "></at>".

(** [sep.join(items)] *)
Fixpoint join (sep : string) (items : list string) : string :=
  match items with
  | [] => EmptyString
  | [x] => x
  | x :: rest => x +:+ sep +:+ join sep rest
  end.

Definition send_text_message (self : FeishuRobotSender) (text : string)
    (at_users : option (list string)) (at_all : bool) : M reply :=
  let text :=
    match at_users with
    | Some ((_ :: _) as users) =>
        let at_text := join " " (map at_token users) in
        at_text +:+ " " +:+ text
    | _ => text
    end in
  let text := if at_all then ("<at user_id=" +:+ DQUOTE +:+ "all" +:+ DQUOTE +:+ "></at> ") +:+ text
              else text in
  let* payload :=
    new_dict {[ "msg_type" := JStr "text";
                "content" := JObj [("text", JStr text)] ]} in
  _send_message time_time http self payload.

Definition send_post_message (self : FeishuRobotSender) (title : string)
    (content : json) (language : string) : M reply :=
  let* payload :=
    new_dict {[ "msg_type" := JStr "post";
                "content" :=
                  JObj [("post",
                         JObj [(language, JObj [("title", JStr title);
                                                ("content", content)])])] ]} in
  _send_message time_time http self payload.

Definition send_card_message (self : FeishuRobotSender) (card : json) : M reply :=
  let* payload :=
    new_dict {[ "msg_type" := JStr "interactive"; "card" := card ]} in
  _send_message time_time http self payload.

End Demo.
End Demo.

(** ** [datetime], as far as the poller uses it *)

Record datetime := {
  year : Z; month : Z; day : Z;
  hour : Z; minute : Z; second : Z; microsecond : Z;
  tzinfo : option Z            (* None: naive; Some off: aware, off seconds east of UTC *)
}.

Definition UTC : option Z := Some 0.

Definition _DAYS_IN_MONTH : list Z := [-1; 31; 28; 31; 30; 31; 30; 31; 31; 30; 31; 30; 31].
Definition _DAYS_BEFORE_MONTH : list Z :=
  [-1; 0; 31; 59; 90; 120; 151; 181; 212; 243; 273; 304; 334].

Definition _is_leap (y : Z) : bool :=
  (y mod 4 =? 0) && (negb (y mod 100 =? 0) || (y mod 400 =? 0)).

Definition _days_before_year (y : Z) : Z :=
  let y := y - 1 in y * 365 + y / 4 - y / 100 + y / 400.

Definition _days_in_month (y m : Z) : Z :=
  if (m =? 2) && _is_leap y then 29 else nth (Z.to_nat m) _DAYS_IN_MONTH 0.

Definition _days_before_month (y m : Z) : Z :=
  nth (Z.to_nat m) _DAYS_BEFORE_MONTH 0 + (if (2 <? m) && _is_leap y then 1 else 0).

Definition _ymd2ord (y m d : Z) : Z :=
  _days_before_year y + _days_before_month y m + d.

Definition between (lo x hi : Z) : bool := (lo <=? x) && (x <=? hi).

(** [datetime(year, month, day, hour, minute, second, tzinfo=tz)]: the
    fields are checked, [ValueError] otherwise. *)
Definition datetime_new (y mo d h mi s : Z) (tz : option Z) : result datetime :=
  if negb (between 1 y 9999) then
    Raise (ValueError ("year " +:+ str_of_int y +:+ " is out of range"))
  else if negb (between 1 mo 12) then Raise (ValueError "month must be in 1..12")
  else if negb (between 1 d (_days_in_month y mo)) then
    Raise (ValueError "day is out of range for month")
  else if negb (between 0 h 23) then Raise (ValueError "hour must be in 0..23")
  else if negb (between 0 mi 59) then Raise (ValueError "minute must be in 0..59")
  else if negb (between 0 s 59) then Raise (ValueError "second must be in 0..59")
  else Ok {| year := y; month := mo; day := d; hour := h; minute := mi; second := s;
             microsecond := 0; tzinfo := tz |}.

(** [dt.replace(tzinfo=tz)] *)
Definition replace_tzinfo (dt : datetime) (tz : option Z) : datetime :=
  {| year := year dt; month := month dt; day := day dt; hour := hour dt;
     minute := minute dt; second := second dt; microsecond := microsecond dt;
     tzinfo := tz |}.

Definition fields (dt : datetime) : list Z :=
  [year dt; month dt; day dt; hour dt; minute dt; second dt; microsecond dt].

(** Comparison of tuples of integers. *)
Fixpoint cmp_tuple (a b : list Z) : comparison :=
  match a, b with
  | [], [] => Eq
  | [], _ :: _ => Lt
  | _ :: _, [] => Gt
  | x :: a', y :: b' =>
      match x ?= y with
      | Eq => cmp_tuple a' b'
      | c => c
      end
  end.

(** Microseconds from the start of day 0 to the wall-clock fields. *)
Definition wall_micros (dt : datetime) : Z :=
  ((_ymd2ord (year dt) (month dt) (day dt) * 86400
    + hour dt * 3600 + minute dt * 60 + second dt) * 1000000) + microsecond dt.

(** [datetime._cmp]: equal offsets compare field by field; a naive and an
    aware value do not compare; otherwise the sign of the difference of the
    two instants. *)
Definition dt_cmp (a b : datetime) : result comparison :=
  match tzinfo a, tzinfo b with
  | None, None => Ok (cmp_tuple (fields a) (fields b))
  | Some oa, Some ob =>
      if oa =? ob then Ok (cmp_tuple (fields a) (fields b))
      else Ok ((wall_micros a - wall_micros b + (ob - oa) * 1000000) ?= 0)
  | _, _ => Raise (TypeError "can't compare offset-naive and offset-aware datetimes")
  end.

(** [a > b] *)
Definition dt_gt (a b : datetime) : result bool :=
  match dt_cmp a b with
  | Ok Gt => Ok true
  | Ok _ => Ok false
  | Raise e => Raise e
  end.

(** [a <= b] *)
Definition dt_le (a b : datetime) : result bool :=
  match dt_cmp a b with
  | Ok Gt => Ok false
  | Ok _ => Ok true
  | Raise e => Raise e
  end.

(** ** The feed, as feedparser hands it over *)

Record struct_time := {
  tm_year : Z; tm_mon : Z; tm_mday : Z;
  tm_hour : Z; tm_min : Z; tm_sec : Z;
  tm_wday : Z; tm_yday : Z; tm_isdst : Z
}.

(** An entry of [feed.entries].  A key the feed did not provide is [None];
    [published_parsed] can be present and hold [None] (a date feedparser
    could not read). *)
Record entry := {
  feed_id : option string;                       (* the key 'id' *)
  link : option string;
  title : option string;
  summary : option string;
  published_parsed : option (option struct_time)
}.

(** Attribute access on an entry: [AttributeError] for a missing key. *)
Definition getattr {A} (name : string) (field : option A) : M A :=
  match field with
  | Some a => ret a
  | None => raise (AttributeError ("object has no attribute '" +:+ name +:+ "'"))
  end.

(** [datetime] applied to the first six fields of [published_parsed], with
    [tzinfo=pytz.UTC]. *)
Definition datetime_of_parsed (t : option struct_time) : result datetime :=
  match t with
  | None => Raise (TypeError "'NoneType' object is not subscriptable")
  | Some t =>
      datetime_new (tm_year t) (tm_mon t) (tm_mday t) (tm_hour t) (tm_min t) (tm_sec t) UTC
  end.

(** The dictionaries [get_new_notifications] returns, with the keys
    "title", "content", "published" and "id". *)
Record notification := {
  n_title : string;
  n_content : string;
  n_published : datetime;
  n_id : string
}.

(** ** [latest_paper_bot.py] *)

Module PaperBot.
Section PaperBot.

(** The world: the clock of [time.time], the endpoint, what the feed
    holds at each fetch, and the reading of [datetime.now(pytz.UTC)] that
    ends each cycle. *)
Variable time_time : nat -> Z.
Variable http : nat -> post_outcome.
Variable feed : nat -> list entry.
Variable utcnow : nat -> datetime.

(** [dt.astimezone(pytz.timezone('Asia/Shanghai'))], which overflows at
    the end of year 9999, and [dt.strftime("%Y-%m-%d %H:%M:%S %Z")]. *)
Variable astimezone_shanghai : datetime -> result datetime.
Variable strftime : datetime -> string.

Definition send_text_message (self : FeishuRobotSender) (text : string) : M reply :=
  let* payload :=
    new_dict {[ "msg_type" := JStr "text";
                "content" := JObj [("text", JStr text)] ]} in
  _send_message time_time http self payload.

Definition send_card_message (self : FeishuRobotSender) (card : json) : M reply :=
  let* payload :=
    new_dict {[ "msg_type" := JStr "interactive"; "card" := card ]} in
  _send_message time_time http self payload.

(** [entry.get('id', entry.link)]: the default is evaluated first. *)
Definition entry_get_id (e : entry) : M string :=
  let* default := getattr "link" (link e) in
  ret (match feed_id e with
       | Some i => i
       | None => default
       end).

(** The arguments of the debug lines are evaluated whatever the level. *)
Definition debug_entry (e : entry) (published_time last_checked : datetime) : M unit :=
  getattr "title" (title e) ;;
  lift (astimezone_shanghai published_time) ;;
  lift (dt_gt published_time last_checked) ;;
  ret tt.

(** The body of [for entry in feed.entries]. *)
Fixpoint for_entries (entries : list entry) (last_checked : datetime)
    (sent_entries : loc) (debug : bool) (new_notifications : list notification)
  : M (list notification) :=
  match entries with
  | [] => ret new_notifications
  | e :: rest =>
      let* entry_id := entry_get_id e in
      let* seen := set_contains sent_entries entry_id in
      if seen then for_entries rest last_checked sent_entries debug new_notifications
      else
        let* parsed := getattr "published_parsed" (published_parsed e) in
        let* published_time := lift (datetime_of_parsed parsed) in
        (if debug then debug_entry e published_time last_checked else ret tt) ;;
        let* is_new := lift (dt_gt published_time last_checked) in
        if is_new then
          let* t := getattr "title" (title e) in
          let* c := getattr "summary" (summary e) in
          for_entries rest last_checked sent_entries debug
            (new_notifications ++
               [{| n_title := t; n_content := c;
                   n_published := published_time; n_id := entry_id |}])
        else for_entries rest last_checked sent_entries debug new_notifications
  end.

(** [entries] stands for [feedparser.parse(rss_url).entries]. *)
Definition get_new_notifications (entries : list entry) (last_checked : datetime)
    (sent_entries : loc) (debug : bool) : M (list notification) :=
  let last_checked :=
    match tzinfo last_checked with
    | None => replace_tzinfo last_checked UTC
    | Some _ => last_checked
    end in
  for_entries entries last_checked sent_entries debug [].

Definition div_block (text : string) : json :=
  JObj [("tag", JStr "div");
        ("text", JObj [("content", JStr text); ("tag", JStr "lark_md")])].

Definition make_card (title content beijing_time : string) : json :=
  JObj [("header",
         JObj [("title", JObj [("content", JStr "New Paper Notification");
                               ("tag", JStr "plain_text")]);
               ("template", JStr "blue")]);
        ("elements",
         JArr [div_block ("**Title**" +:+ LF +:+ title);
               div_block ("**Content**" +:+ LF +:+ content);
               div_block ("**Published Time**" +:+ LF +:+ beijing_time)])].

(** The card of a notification is about to go to [send_card_message]. *)
Definition note_delivery (entry_id : string) : M unit :=
  fun s => (Ok tt, {| heap := heap s; clock_reads := clock_reads s; posts := posts s;
                      delivered := delivered s ++ [entry_id] |}).

(** The body of [for notification in new_notifications]. *)
Fixpoint for_notifications (robot : FeishuRobotSender) (sent_entries : loc)
    (new_notifications : list notification) : M unit :=
  match new_notifications with
  | [] => ret tt
  | n :: rest =>
      let* local := lift (astimezone_shanghai (n_published n)) in
      let beijing_time := strftime local in
      let card := make_card (n_title n) (n_content n) beijing_time in
      note_delivery (n_id n) ;;
      send_card_message robot card ;;
      set_add sent_entries (n_id n) ;;
      for_notifications robot sent_entries rest
  end.

(** The variables of [main] that the loop reads and assigns. *)
Record locals := {
  last_checked : datetime;
  sent_entries : loc;
  cycles : nat              (* completed iterations of [while True] *)
}.

(** The [try] block of one iteration. *)
Definition poll_and_notify (robot : FeishuRobotSender) (debug : bool) (v : locals) : M unit :=
  let* new_notifications :=
    get_new_notifications (feed (cycles v)) (last_checked v) (sent_entries v) debug in
  match new_notifications with
  | [] => ret tt
  | _ => for_notifications robot (sent_entries v) new_notifications
  end.

(** One iteration of [while True]: the [try] block under
    [except Exception], then the assignment of [last_checked]. *)
Definition iteration (robot : FeishuRobotSender) (debug : bool) (v : locals)
  : state -> locals * state :=
  fun s =>
    let '(_, s') :=
      try_except (poll_and_notify robot debug v) (fun _ => true) (fun _ => ret tt) s in
    ({| last_checked := utcnow (cycles v);
        sent_entries := sent_entries v;
        cycles := S (cycles v) |}, s').

(** The first [n] iterations of the loop. *)
Fixpoint loop (n : nat) (robot : FeishuRobotSender) (debug : bool) (v : locals)
  : state -> locals * state :=
  fun s =>
    match n with
    | O => (v, s)
    | S n' =>
        let '(v', s') := iteration robot debug v s in
        loop n' robot debug v' s'
    end.

(** [main], run for [n] iterations.  [reference_utc] is the reference
    time of the command line, already converted from Asia/Shanghai to UTC. *)
Definition main (webhook : string) (debug : bool) (reference_utc : datetime) (n : nat)
  : state -> locals * state :=
  fun s =>
    let robot := {| webhook_url := webhook; secret := None |} in
    match new_set s with
    | (Ok sent, s') =>
        loop n robot debug
             {| last_checked := reference_utc; sent_entries := sent; cycles := 0%nat |} s'
    | (Raise _, s') =>
        ({| last_checked := reference_utc; sent_entries := 0%nat; cycles := 0%nat |}, s')
    end.

End PaperBot.
End PaperBot.

Definition initial_state : state :=
  {| heap := []; clock_reads := 0; posts := []; delivered := [] |}.

(** Hexadecimal rendering, for the test vectors. *)
Definition hex_digit (z : Z) : string :=
  match String.get (Z.to_nat z) "0123456789abcdef" with
  | Some c => String c EmptyString
  | None => EmptyString
  end.

Definition hexdigest (b : bytes) : string :=
  fold_right (fun x acc => (hex_digit (Z_of_byte x / 16) +:+ hex_digit (Z_of_byte x mod 16) +:+ acc)%string)
             EmptyString b.

(** ** Vocabulary of the statements, and sample data *)

(** Reading a decimal string back, most significant digit first. *)
Fixpoint digits_value (s : string) (acc : Z) : Z :=
  match s with
  | EmptyString => acc
  | String c s' => digits_value s' (acc * 10 + (Z.of_nat (nat_of_ascii c) - 48))
  end.

Definition int_of_str (s : string) : Z :=
  match s with
  | String "-" s' => - digits_value s' 0
  | _ => digits_value s 0
  end.

Definition plus_8 (y mo d h mi s : Z) : datetime :=
  {| year := y; month := mo; day := d; hour := h; minute := mi; second := s;
     microsecond := 0; tzinfo := Some 28800 |}.

Definition signature (t : Z) (sec : string) (data : bytes) : gmap string json :=
  {[ "timestamp" := JStr (str_of_int t);
     "sign" := JStr (str_of_bytes
                       (Base64.b64encode
                          (Hmac.HMAC_SHA256 (bytes_of_str (str_of_int t +:+ LF +:+ sec)) data))) ]}.

Definition example_sender : FeishuRobotSender :=
  {| webhook_url := "https://open.feishu.cn/open-apis/bot/v2/hook/x"; secret := Some "s3cret" |}.

Definition example_clock : nat -> Z := fun _ => 1734866362.

Definition error_reply (payload : loc) (e : exn) : reply :=
  RDict {[ "error" := VStr (str_of_exn e); "payload" := VRef payload ]}.

Definition json_headers : list (string * string) := [("Content-Type", "application/json")].

(** A public [send_*] method: a new dictionary is built and handed to
    [_send_message]. *)
Definition send_new (time_time : nat -> Z) (http : nat -> post_outcome)
    (self : FeishuRobotSender) (d : gmap string json) : M reply :=
  let* payload := new_dict d in _send_message time_time http self payload.

Definition unsigned (req : request) : Prop :=
  req_json req !! "timestamp" = None /\ req_json req !! "sign" = None.

Definition plain_sender : FeishuRobotSender :=
  {| webhook_url := "https://open.feishu.cn/open-apis/bot/v2/hook/x"; secret := None |}.

Definition accepted : response :=
  {| status_code := 200; reason := "OK";
     url := "https://open.feishu.cn/open-apis/bot/v2/hook/x";
     content := JsonBody (JObj [("StatusCode", JNum 0); ("msg", JStr "success")]) |}.

Definition always (r : response) : nat -> post_outcome := fun _ => PostReturns r.

(** The POST failed with an exception of requests, or came back with a
    status from 400 to 599. *)
Definition delivery_fails (o : post_outcome) : Prop :=
  match o with
  | PostRaises e => is_RequestException e = true
  | PostReturns r => 400 <= status_code r < 600
  end.

(** An outcome that [_send_message] turns into a result: what the POST or
    the decoder raises, if anything, is a [RequestException]. *)
Definition caught (o : post_outcome) : Prop :=
  match o with
  | PostRaises e => is_RequestException e = true
  | PostReturns r =>
      400 <= status_code r < 600
      \/ forall e, content r = Unreadable e -> is_RequestException e = true
  end.

(** A 200 answer whose JSON holds an integer of 4301 digits. *)
Definition big_integer : response :=
  {| status_code := 200; reason := "OK";
     url := "https://open.feishu.cn/open-apis/bot/v2/hook/x";
     content :=
       Unreadable (ValueError "Exceeds the limit (4300 digits) for integer string conversion") |}.

(** A POST that urllib3 refuses before anything is sent. *)
Definition bad_location : nat -> post_outcome :=
  fun _ => PostRaises (LocationParseError "Failed to parse: https://open.feishu.cn:x/hook").

Definition text_payload (text : string) : gmap string json :=
  {[ "msg_type" := JStr "text"; "content" := JObj [("text", JStr text)] ]}.

Definition one_payload (text : string) : state :=
  {| heap := [ODict (text_payload text)]; clock_reads := 0; posts := []; delivered := [] |}.

Definition rejected : response :=
  {| status_code := 400; reason := "Bad Request";
     url := "https://open.feishu.cn/open-apis/bot/v2/hook/x";
     content := JsonBody (JObj [("code", JNum 19001); ("msg", JStr "param invalid")]) |}.


Definition hi_with_mentions : string :=
  "<at user_id=" +:+ DQUOTE +:+ "all" +:+ DQUOTE +:+ "></at> "
  +:+ "<at user_id=" +:+ DQUOTE +:+ "u1" +:+ DQUOTE +:+ "></at> "
  +:+ "<at user_id=" +:+ DQUOTE +:+ "u2" +:+ DQUOTE +:+ "></at> "
  +:+ "hi".

(** [entry.get('id', entry.link)], where it has a value. *)
Definition derived_id (e : entry) : option string :=
  match link e with
  | None => None
  | Some l => Some (default l (feed_id e))
  end.

Definition published_time (e : entry) : option datetime :=
  match published_parsed e with
  | Some parsed =>
      match datetime_of_parsed parsed with
      | Ok dt => Some dt
      | Raise _ => None
      end
  | None => None
  end.

(** [n] is the dictionary made from the entry [e]. *)
Definition notification_of (e : entry) (n : notification) : Prop :=
  derived_id e = Some (n_id n)
  /\ title e = Some (n_title n)
  /\ summary e = Some (n_content n)
  /\ published_time e = Some (n_published n).

(** [wm], made aware as [get_new_notifications] does it. *)
Definition as_utc (wm : datetime) : datetime :=
  match tzinfo wm with
  | None => replace_tzinfo wm UTC
  | Some _ => wm
  end.

Definition picked (sent : option obj) (wm : datetime) (entries : list entry)
    (n : notification) : Prop :=
  dt_gt (n_published n) wm = Ok true
  /\ (forall xs, sent = Some (OSet xs) -> n_id n ∉ xs)
  /\ exists e, e ∈ entries /\ notification_of e n.

Ltac raised H :=
  match type of H with
  | (Raise _, _) = _ =>
      simplify_eq; split; [reflexivity | intros ? ?; discriminate]
  end.

Definition at_utc (y mo d h mi s : Z) : datetime :=
  {| year := y; month := mo; day := d; hour := h; minute := mi; second := s;
     microsecond := 0; tzinfo := UTC |}.

Definition parsed (y mo d h mi s : Z) : option (option struct_time) :=
  Some (Some {| tm_year := y; tm_mon := mo; tm_mday := d;
                tm_hour := h; tm_min := mi; tm_sec := s;
                tm_wday := 0; tm_yday := 1; tm_isdst := 0 |}).

Definition paper (guid : string) (when : option (option struct_time)) : entry :=
  {| feed_id := Some guid; link := Some ("https://notifier.in/item/" +:+ guid);
     title := Some ("Paper " +:+ guid); summary := Some "abstract";
     published_parsed := when |}.

(** The default reference time, 2024-12-22 19:19:22 in Asia/Shanghai. *)
Definition reference : datetime := at_utc 2024 12 22 11 19 22.

Definition sample_feed : list entry :=
  [ paper "old" (parsed 2024 12 21 8 0 0);
    paper "boundary" (parsed 2024 12 22 11 19 22);
    paper "seen" (parsed 2024 12 23 9 30 0);
    paper "fresh" (parsed 2024 12 22 11 19 23) ].

Definition sample_store : state :=
  {| heap := [OSet {[ "seen" ]}]; clock_reads := 0; posts := []; delivered := [] |}.

Definition no_overflow : datetime -> result datetime := fun dt => Ok dt.

Definition fresh_notification : notification :=
  {| n_title := "Paper fresh"; n_content := "abstract";
     n_published := at_utc 2024 12 22 11 19 23; n_id := "fresh" |}.

Definition watermark (time_time : nat -> Z) (http : nat -> post_outcome)
    (feed : nat -> list entry) (utcnow : nat -> datetime)
    (astz : datetime -> result datetime) (strftime : datetime -> string)
    (webhook : string) (debug : bool) (reference_utc : datetime) (s : state) (n : nat)
  : datetime :=
  PaperBot.last_checked
    (fst (PaperBot.main time_time http feed utcnow astz strftime webhook debug
            reference_utc n s)).

Definition beijing : datetime -> string := fun _ => "2024-12-23 17:30:00 CST".

Definition hook : string := "https://open.feishu.cn/open-apis/bot/v2/hook/x".

Definition repeated_feed : nat -> list entry :=
  fun _ => [ paper "dup" (parsed 2024 12 23 9 30 0); paper "dup" (parsed 2024 12 23 9 30 0) ].

Definition distinct_feed : nat -> list entry :=
  fun _ => [ paper "a" (parsed 2024 12 23 9 30 0); paper "b" (parsed 2024 12 23 9 30 0) ].

Definition stopped_clock : nat -> datetime := fun _ => at_utc 2024 12 22 12 0 0.

Definition ticking_clock : nat -> datetime :=
  fun k => {| year := 2025; month := 6; day := 1; hour := 0; minute := 0; second := 0;
              microsecond := Z.min 999999 (Z.of_nat k); tzinfo := UTC |}.

(** Every delivered id is in the set of sent ids, and none was delivered
    twice. *)
Definition once (sent : loc) (s : state) : Prop :=
  exists xs,
    heap s !! sent = Some (OSet xs)
    /\ NoDup (delivered s)
    /\ forall i, i ∈ delivered s -> i ∈ xs.

(** Characters of a string. *)
Definition str_len (s : string) : nat := String.length s.

(** The field [k] of a dictionary, when it holds a string. *)
Definition str_field (d : gmap string json) (k : string) : option string :=
  match d !! k with
  | Some (JStr v) => Some v
  | _ => None
  end.

Definition not_json : response :=
  {| status_code := 200; reason := "OK";
     url := "https://open.feishu.cn/open-apis/bot/v2/hook/x";
     content := NotJson "Expecting value: line 1 column 1 (char 0)" |}.

Definition two_objects : state :=
  {| heap := [ODict (text_payload "hi"); OSet {[ "seen" ]}];
     clock_reads := 0; posts := []; delivered := [] |}.

(** The dictionary made from an entry that has a link, a title, a summary
    and a date that [datetime] accepts. *)
Definition record_of (e : entry) : option notification :=
  match derived_id e, title e, summary e, published_time e with
  | Some i, Some t, Some c, Some p =>
      Some {| n_title := t; n_content := c; n_published := p; n_id := i |}
  | _, _, _, _ => None
  end.

Definition well_formed (e : entry) : Prop := is_Some (record_of e).

(** Not sent yet, and published strictly after the watermark. *)
Definition is_new (xs : gset string) (wm : datetime) (n : notification) : bool :=
  bool_decide (n_id n ∉ xs)
  && match dt_gt (n_published n) wm with
     | Ok true => true
     | _ => false
     end.

Definition no_link (guid : string) : entry :=
  {| feed_id := Some guid; link := None; title := Some "t"; summary := Some "s";
     published_parsed := parsed 2024 12 23 9 30 0 |}.

Definition end_of_time : datetime -> result datetime :=
  fun dt => if year dt =? 9999 then Raise (OverflowError "date value out of range") else Ok dt.

(** The set of sent ids holds the delivered ids and nothing else. *)
Definition sent_is_delivered (sent : loc) (s : state) : Prop :=
  heap s !! sent = Some (OSet (list_to_set (delivered s))).

(** A POST of the polling loop: an unsigned interactive card sent to the
    webhook. *)
Definition card_post (webhook : string) (req : request) : Prop :=
  req_url req = webhook
  /\ unsigned req
  /\ req_json req !! "msg_type" = Some (JStr "interactive").

Definition failing : nat -> post_outcome :=
  fun _ => PostRaises (ConnectionError "Connection refused").

Definition first_cycle : PaperBot.locals :=
  {| PaperBot.last_checked := reference; PaperBot.sent_entries := 0%nat;
     PaperBot.cycles := 0%nat |}.

Definition note (guid : string) (when : datetime) : notification :=
  {| n_title := "Paper " +:+ guid; n_content := "abstract"; n_published := when;
     n_id := guid |}.

(** * Properties *)

(** ** The primitives against published test vectors *)

Example sha256_constants :
  (nth 0 Sha256.K 0, nth 63 Sha256.K 0, nth 0 Sha256.H0 0, nth 7 Sha256.H0 0)
  = (0x428a2f98, 0xc67178f2, 0x6a09e667, 0x5be0cd19).
Proof. reflexivity. Qed.

Example sha256_abc :
  hexdigest (Sha256.sha256 (bytes_of_str "abc"))
  = "ba7816bf8f01cfea414140de5dae2223b00361a396177a9cb410ff61f20015ad".
Proof. vm_compute. reflexivity. Qed.

Example sha256_empty :
  hexdigest (Sha256.sha256 [])
  = "e3b0c44298fc1c149afbf4c8996fb92427ae41e4649b934ca495991b7852b855".
Proof. vm_compute. reflexivity. Qed.

Example sha256_two_blocks :
  hexdigest (Sha256.sha256
               (bytes_of_str "abcdbcdecdefdefgefghfghighijhijkijkljklmklmnlmnomnopnopq"))
  = "248d6a61d20638b8e5c026930c3e6039a33ce45964ff2167f6ecedd419db06c1".
Proof. vm_compute. reflexivity. Qed.

Example hmac_sha256_fox :
  hexdigest (Hmac.HMAC_SHA256 (bytes_of_str "key")
               (bytes_of_str "The quick brown fox jumps over the lazy dog"))
  = "f7bc83f430538424b13298e6aa6fb143ef4d59a14946175997479dbc2d1a3cd8".
Proof. vm_compute. reflexivity. Qed.

Example hmac_sha256_long_key :
  hexdigest (Hmac.HMAC_SHA256 (repeat x61 100) (repeat x62 200))
  = "b029e8b4b0f16b91f9d93f78649e76e6f6c4f38814a23b64aa325fd9797e3e31".
Proof. vm_compute. reflexivity. Qed.

Example b64encode_padding :
  map (fun s => str_of_bytes (Base64.b64encode (bytes_of_str s)))
      ["hello world!!"; "hello world!"; "hello world"]
  = ["aGVsbG8gd29ybGQhIQ=="; "aGVsbG8gd29ybGQh"; "aGVsbG8gd29ybGQ="].
Proof. vm_compute. reflexivity. Qed.

Example str_of_int_samples :
  map str_of_int [0; 9; 10; -120; 99999; 100000; 1734866362]
  = ["0"; "9"; "10"; "-120"; "99999"; "100000"; "1734866362"].
Proof. vm_compute. reflexivity. Qed.

(** ** The fuel of the helpers is enough *)

(** Cutting into pieces loses nothing. *)
Lemma chunks_concat {A} (n : nat) :
  (0 < n)%nat ->
  forall (fuel : nat) (l : list A),
    (length l <= fuel)%nat -> concat (Sha256.chunks fuel n l) = l.
Proof.
  intros Hn. induction fuel as [|fuel IH]; intros l Hlen.
  - destruct l; [reflexivity|]. cbn in Hlen. lia.
  - destruct l as [|x l]; [reflexivity|].
    cbn [Sha256.chunks concat]. rewrite IH.
    + apply firstn_skipn.
    + rewrite length_skipn. cbn [length] in *. lia.
Qed.

(** The padded message is a whole number of 64-byte blocks. *)
Lemma pad_length (msg : list Z) : (Z.of_nat (length (Sha256.pad msg)) mod 64 = 0)%Z.
Proof.
  unfold Sha256.pad. rewrite length_app. cbn [length].
  rewrite length_app, repeat_length. cbn [Sha256.be_bytes length].
  set (len := Z.of_nat (length msg)).
  assert (Hr : 0 <= (55 - len) mod 64 < 64) by (apply Z.mod_pos_bound; lia).
  pose proof (Z.div_mod (55 - len) 64 ltac:(lia)) as Hdiv.
  replace (Z.of_nat (length msg + S (Z.to_nat ((55 - len) mod 64) + 8)))
    with ((1 - (55 - len) / 64) * 64) by lia.
  apply Z.mod_mul. lia.
Qed.

Lemma append_assoc (a b c : string) : (a +:+ b) +:+ c = a +:+ (b +:+ c).
Proof.
  induction a as [|x a IH]; [reflexivity|].
  change (String x ((a +:+ b) +:+ c) = String x (a +:+ (b +:+ c))). rewrite IH. reflexivity.
Qed.

Lemma digits_value_app (a b : string) (v : Z) :
  digits_value (a +:+ b) v = digits_value b (digits_value a v).
Proof. revert v. induction a as [|c a IH]; intros v; [reflexivity|]. cbn. apply IH. Qed.

Lemma digit_char_value (d : Z) :
  0 <= d < 10 -> Z.of_nat (nat_of_ascii (digit_char d)) - 48 = d.
Proof.
  intros Hd. unfold digit_char. rewrite nat_ascii_embedding by lia. lia.
Qed.

Lemma decimal_go_value (fuel : nat) :
  forall (n : Z) (acc : string),
    0 <= n < 2 ^ Z.of_nat fuel ->
    exists pre, decimal_go fuel n acc = pre +:+ acc /\ digits_value pre 0 = n.
Proof.
  induction fuel as [|fuel IH]; intros n acc Hn.
  - exists EmptyString. split; [reflexivity|]. cbn in *. lia.
  - cbn [decimal_go].
    assert (Hd : 0 <= n mod 10 < 10) by (apply Z.mod_pos_bound; lia).
    pose proof (Z.div_mod n 10 ltac:(lia)) as Hdiv.
    destruct (n / 10 =? 0) eqn:Hq.
    + apply Z.eqb_eq in Hq. exists (String (digit_char (n mod 10)) EmptyString).
      split; [reflexivity|]. cbn. rewrite digit_char_value by assumption. lia.
    + apply Z.eqb_neq in Hq.
      assert (Hlt : 0 <= n / 10 < 2 ^ Z.of_nat fuel).
      { split; [apply Z.div_pos; lia|].
        rewrite Nat2Z.inj_succ, Z.pow_succ_r in Hn by lia.
        apply Z.div_lt_upper_bound; lia. }
      destruct (IH (n / 10) (String (digit_char (n mod 10)) acc) Hlt) as (pre & Hgo & Hval).
      exists (pre +:+ String (digit_char (n mod 10)) EmptyString). split.
      * rewrite Hgo. rewrite append_assoc. reflexivity.
      * rewrite digits_value_app, Hval. cbn.
        rewrite digit_char_value by assumption. lia.
Qed.

Lemma decimal_value (n : Z) : 0 <= n -> digits_value (decimal n) 0 = n.
Proof.
  intros Hn. unfold decimal.
  destruct (decimal_go_value (S (Z.to_nat (Z.log2 n))) n EmptyString) as (pre & Hgo & Hval).
  - split; [assumption|].
    rewrite Nat2Z.inj_succ, Z2Nat.id by apply Z.log2_nonneg.
    destruct (Z.eq_dec n 0) as [->|Hne]; [reflexivity|].
    apply Z.log2_spec. lia.
  - rewrite Hgo. rewrite digits_value_app. cbn. exact Hval.
Qed.

Lemma digit_char_not_minus (d : Z) : 0 <= d < 10 -> digit_char d <> "-"%char.
Proof.
  intros Hd E. apply (f_equal nat_of_ascii) in E. unfold digit_char in E.
  rewrite nat_ascii_embedding in E by lia.
  change (nat_of_ascii "-") with 45%nat in E. lia.
Qed.

Lemma decimal_no_sign (n : Z) :
  0 <= n -> exists c s, decimal n = String c s /\ c <> "-"%char.
Proof.
  intros Hn. unfold decimal. cbn [decimal_go].
  assert (Hd : 0 <= n mod 10 < 10) by (apply Z.mod_pos_bound; lia).
  assert (Hlast : forall fuel m acc c s,
             acc = String c s -> c <> "-"%char -> 0 <= m ->
             exists c' s', decimal_go fuel m acc = String c' s' /\ c' <> "-"%char).
  { induction fuel as [|fuel IH]; intros m acc c s Hacc Hc Hm.
    - exists c, s. split; assumption.
    - cbn [decimal_go].
      assert (Hmd : 0 <= m mod 10 < 10) by (apply Z.mod_pos_bound; lia).
      assert (Hdc : digit_char (m mod 10) <> "-"%char)
        by (apply digit_char_not_minus; assumption).
      destruct (m / 10 =? 0).
      + eexists _, _. split; [reflexivity|assumption].
      + eapply IH; [reflexivity|assumption|]. apply Z.div_pos; lia. }
  assert (Hdc : digit_char (n mod 10) <> "-"%char)
    by (apply digit_char_not_minus; assumption).
  destruct (n / 10 =? 0).
  - eexists _, _. split; [reflexivity|assumption].
  - eapply Hlast; [reflexivity|assumption|]. apply Z.div_pos; lia.
Qed.

(** [str_of_int] writes every integer in full: reading the string back
    gives the integer. *)
Lemma int_of_str_of_int (z : Z) : int_of_str (str_of_int z) = z.
Proof.
  unfold str_of_int. destruct (z <? 0) eqn:Hneg.
  - apply Z.ltb_lt in Hneg.
    change (int_of_str ("-" +:+ decimal (- z))) with (- digits_value (decimal (- z)) 0).
    rewrite decimal_value by lia. lia.
  - apply Z.ltb_ge in Hneg.
    destruct (decimal_no_sign z Hneg) as (c & s & Hdec & Hc).
    rewrite <- (decimal_value z Hneg) at 2. rewrite Hdec. unfold int_of_str.
    destruct c as [[] [] [] [] [] [] [] []]; try reflexivity. congruence.
Qed.

(** ** [datetime] against the Python library *)

Example ordinals :
  map (fun d => _ymd2ord (year d) (month d) (day d))
      [at_utc 1 1 1 0 0 0; at_utc 1970 1 1 0 0 0; at_utc 2000 3 1 0 0 0;
       at_utc 2024 12 22 0 0 0; at_utc 9999 12 31 0 0 0]
  = [1; 719163; 730180; 739242; 3652059].
Proof. reflexivity. Qed.

Example constructor_checks :
  map (fun t => match datetime_of_parsed t with Ok _ => EmptyString | Raise e => str_of_exn e end)
      [Some {| tm_year := 2023; tm_mon := 2; tm_mday := 29; tm_hour := 0; tm_min := 0;
                     tm_sec := 0; tm_wday := 0; tm_yday := 1; tm_isdst := 0 |};
       Some {| tm_year := 2024; tm_mon := 2; tm_mday := 29; tm_hour := 0; tm_min := 0;
                     tm_sec := 0; tm_wday := 0; tm_yday := 1; tm_isdst := 0 |};
       Some {| tm_year := 2024; tm_mon := 12; tm_mday := 22; tm_hour := 23; tm_min := 59;
                     tm_sec := 60; tm_wday := 0; tm_yday := 1; tm_isdst := 0 |};
       Some {| tm_year := 0; tm_mon := 1; tm_mday := 1; tm_hour := 0; tm_min := 0;
                     tm_sec := 0; tm_wday := 0; tm_yday := 1; tm_isdst := 0 |};
       None]
  = ["day is out of range for month"; EmptyString; "second must be in 0..59";
     "year 0 is out of range"; "'NoneType' object is not subscriptable"].
Proof. reflexivity. Qed.

(** The same instant in two zones compares equal; one second later in
    Shanghai is after it. *)
Example compare_across_zones :
  dt_cmp (plus_8 2024 12 22 19 19 22) reference = Ok Eq
  /\ dt_gt (plus_8 2024 12 22 19 19 23) reference = Ok true
  /\ dt_gt (at_utc 2024 12 22 12 0 0) (plus_8 2024 12 22 19 19 22) = Ok true
  /\ dt_gt (replace_tzinfo reference None) reference
     = Raise (TypeError "can't compare offset-naive and offset-aware datetimes").
Proof. repeat split; reflexivity. Qed.

(** ** The HMAC object computes the function of RFC 2104 *)

Lemma hmac_object_digest (key : bytes) (msg : option bytes) :
  Hmac.digest (Hmac.new key msg) = Hmac.HMAC_SHA256 key (default [] msg).
Proof.
  unfold Hmac.digest, Hmac.new, Hmac.HMAC_SHA256, Sha256.block_size.
  destruct msg as [m|]; cbn [default Hmac.update Hmac._inner Hmac._outer];
    unfold Sha256.digest, Sha256.update, Sha256.copy, Sha256.new;
    cbn [Sha256.fed app]; rewrite ?app_nil_r; reflexivity.
Qed.

(** ** Signing *)

Lemma generate_sign_configured time_time self sec s :
  secret self = Some sec -> sec <> EmptyString ->
  _generate_sign time_time self s
  = (Ok (signature (time_time (clock_reads s)) sec []),
     {| heap := heap s; clock_reads := S (clock_reads s);
        posts := posts s; delivered := delivered s |}).
Proof.
  intros Hsec Hne. unfold _generate_sign. rewrite Hsec.
  destruct sec as [|c sec']; [congruence|].
  unfold bind, clock, ret. rewrite hmac_object_digest. reflexivity.
Qed.

Lemma generate_sign_no_secret time_time self s :
  no_secret self = true -> _generate_sign time_time self s = (Ok ∅, s).
Proof.
  unfold no_secret, _generate_sign.
  destruct (secret self) as [[|c sec']|]; intros H; try discriminate; reflexivity.
Qed.

(** C1, amended: with a non-empty secret, [_generate_sign] returns the two
    string fields [timestamp], the decimal string of the clock reading [t],
    and [sign], the base64 string of HMAC-SHA256 keyed with
    [utf8(str(t) + "\n" + secret)] over the empty message. *)
Theorem generate_sign_keyed_empty_message :
  forall (time_time : nat -> Z) (self : FeishuRobotSender) (sec : string) (s : state),
    secret self = Some sec -> sec <> EmptyString ->
    let t := time_time (clock_reads s) in
    let key := bytes_of_str (str_of_int t +:+ LF +:+ sec) in
    fst (_generate_sign time_time self s)
    = Ok {[ "timestamp" := JStr (str_of_int t);
            "sign" := JStr (str_of_bytes (Base64.b64encode (Hmac.HMAC_SHA256 key []))) ]}.
Proof.
  intros time_time self sec s Hsec Hne t key.
  rewrite (generate_sign_configured _ _ _ _ Hsec Hne). reflexivity.
Qed.

Lemma generate_sign_keyed_empty_message_witness :
  secret example_sender = Some "s3cret" /\ "s3cret" <> EmptyString /\
  fst (_generate_sign example_clock example_sender initial_state)
  = Ok {[ "timestamp" := JStr "1734866362";
          "sign" := JStr "cUbt4ThQp7ZGAtol5/fT+ldKCHysbtikg+9KCbXu1rk=" ]}.
Proof.
  split; [reflexivity|]. split; [discriminate|].
  exact (generate_sign_keyed_empty_message example_clock example_sender "s3cret"
           initial_state eq_refl ltac:(discriminate)).
Defined.

(** C1 as stated fails: the signed data is not the key string. *)
Lemma generate_sign_data_is_not_the_key :
  fst (_generate_sign example_clock example_sender initial_state)
  <> Ok (signature 1734866362 "s3cret"
           (bytes_of_str (str_of_int 1734866362 +:+ LF +:+ "s3cret"))).
Proof.
  intros H.
  assert (Hs : forall A (a b : A), @Ok A a = Ok b -> a = b) by (intros A a b E; congruence).
  apply Hs in H. apply (f_equal (fun m => m !! "sign")) in H.
  vm_compute in H. discriminate H.
Qed.

(** ** [_send_message] *)

Lemma generate_sign_frame time_time self s :
  exists sp s1,
    _generate_sign time_time self s = (Ok sp, s1)
    /\ heap s1 = heap s /\ posts s1 = posts s /\ delivered s1 = delivered s.
Proof.
  destruct (no_secret self) eqn:Hno.
  - exists ∅, s. rewrite generate_sign_no_secret by assumption. auto.
  - unfold no_secret in Hno. destruct (secret self) as [sec|] eqn:Hsec; [|discriminate].
    assert (sec <> EmptyString) by (destruct sec; [discriminate|congruence]).
    eexists _, _. rewrite (generate_sign_configured _ _ sec) by assumption.
    split; [reflexivity|]. auto.
Qed.

(** What one call does, for a payload that is a stored dictionary: the
    signature fields are merged into it in place, that dictionary is
    posted, and the reply follows the outcome of the POST. *)
Lemma send_message_run time_time http self l p s sp s1 :
  heap s !! l = Some (ODict p) ->
  _generate_sign time_time self s = (Ok sp, s1) ->
  heap s1 = heap s -> posts s1 = posts s -> delivered s1 = delivered s ->
  exists r,
    _send_message time_time http self l s
    = (r,
       {| heap := <[l := ODict (sp ∪ p)]> (heap s);
          clock_reads := clock_reads s1;
          posts := posts s ++ [{| req_url := webhook_url self; req_headers := json_headers;
                                  req_json := sp ∪ p |}];
          delivered := delivered s |})
    /\ (forall e, http (length (posts s)) = PostRaises e ->
        r = if is_RequestException e then Ok (error_reply l e) else Raise e)
    /\ (forall resp, http (length (posts s)) = PostReturns resp ->
        400 <= status_code resp < 600 ->
        exists msg, r = Ok (error_reply l (HTTPError msg)))
    /\ (forall resp, http (length (posts s)) = PostReturns resp ->
        ~ 400 <= status_code resp < 600 ->
        match content resp with
        | JsonBody j => r = Ok (RJson j)
        | NotJson msg => r = Ok (error_reply l (JSONDecodeError msg))
        | Unreadable e => r = if is_RequestException e then Ok (error_reply l e) else Raise e
        end).
Proof.
  intros Hl Hgen Hh Hp Hd.
  assert (Hlt : (l < length (heap s))%nat) by (eapply lookup_lt_Some; eassumption).
  unfold _send_message, bind at 1. rewrite Hgen.
  unfold bind at 1, dict_update. rewrite Hh, Hl.
  unfold try_except, requests_post, read_dict, bind, set_heap; cbn [heap posts clock_reads delivered].
  rewrite list_lookup_insert_eq by assumption. rewrite Hp, Hd.
  cbn [heap posts clock_reads delivered].
  destruct (http (length (posts s))) as [e|resp] eqn:Ho.
  - destruct (is_RequestException e) eqn:He; cbn [ret];
      (eexists; split; [reflexivity|]);
      repeat split; intros; simplify_eq; rewrite ?He; reflexivity.
  - unfold raise_for_status, response_json, raise, ret.
    destruct ((400 <=? status_code resp) && (status_code resp <? 500)) eqn:H4;
      [|destruct ((500 <=? status_code resp) && (status_code resp <? 600)) eqn:H5;
        [|destruct (content resp) as [j|msg|e] eqn:Hc;
          [| |destruct (is_RequestException e) eqn:He]]];
      cbn [is_RequestException];
      (eexists; split; [reflexivity|]);
      repeat split; intros; simplify_eq;
      try (eexists; reflexivity); try (exfalso; lia);
      rewrite ?Hc, ?He; reflexivity.
Qed.

Lemma generate_sign_keys time_time self s sp s1 :
  _generate_sign time_time self s = (Ok sp, s1) ->
  forall k, k <> "timestamp" -> k <> "sign" -> sp !! k = None.
Proof.
  intros Hgen k Ht Hs.
  destruct (no_secret self) eqn:Hno.
  - rewrite generate_sign_no_secret in Hgen by assumption. simplify_eq. apply lookup_empty.
  - unfold no_secret in Hno. destruct (secret self) as [sec|] eqn:Hsec; [|discriminate].
    assert (sec <> EmptyString) by (destruct sec; [discriminate|congruence]).
    rewrite (generate_sign_configured _ _ sec) in Hgen by assumption. simplify_eq.
    unfold signature. rewrite lookup_insert_ne by congruence.
    apply lookup_singleton_ne. congruence.
Qed.

(** With a caught outcome the call returns. *)
Lemma caught_returns (l : loc) (o : post_outcome) (r : result reply) :
  (forall e, o = PostRaises e ->
     r = if is_RequestException e then Ok (error_reply l e) else Raise e) ->
  (forall resp, o = PostReturns resp -> 400 <= status_code resp < 600 ->
     exists msg, r = Ok (error_reply l (HTTPError msg))) ->
  (forall resp, o = PostReturns resp -> ~ 400 <= status_code resp < 600 ->
     match content resp with
     | JsonBody j => r = Ok (RJson j)
     | NotJson msg => r = Ok (error_reply l (JSONDecodeError msg))
     | Unreadable e => r = if is_RequestException e then Ok (error_reply l e) else Raise e
     end) ->
  caught o -> exists rp, r = Ok rp.
Proof.
  intros Hraise Hstatus Hbody Hc. destruct o as [e|resp]; cbn [caught] in Hc.
  - rewrite (Hraise e eq_refl), Hc. eauto.
  - destruct (decide (400 <= status_code resp < 600)) as [Hst|Hst].
    + destruct (Hstatus resp eq_refl Hst) as [msg ->]. eauto.
    + specialize (Hbody resp eq_refl Hst). destruct Hc as [Hc|Hc]; [contradiction|].
      destruct (content resp) as [j|msg|e]; subst r; eauto.
      rewrite (Hc e eq_refl). eauto.
Qed.

Lemma send_new_run time_time http self d s :
  exists sp r s',
    send_new time_time http self d s = (r, s')
    /\ heap s' = heap s ++ [ODict (sp ∪ d)]
    /\ posts s' = posts s ++ [{| req_url := webhook_url self; req_headers := json_headers;
                                 req_json := sp ∪ d |}]
    /\ delivered s' = delivered s
    /\ (no_secret self = true -> sp = ∅)
    /\ (forall k, k <> "timestamp" -> k <> "sign" -> sp !! k = None)
    /\ (caught (http (length (posts s))) -> exists rp, r = Ok rp).
Proof.
  unfold send_new, bind at 1, new_dict.
  set (s2 := set_heap (heap s ++ [ODict d]) s).
  destruct (generate_sign_frame time_time self s2) as (sp & s1 & Hgen & Hh & Hp & Hd).
  assert (Hl : heap s2 !! length (heap s) = Some (ODict d))
    by (unfold s2; cbn [heap set_heap]; apply list_lookup_middle; reflexivity).
  destruct (send_message_run time_time http self _ _ _ _ _ Hl Hgen Hh Hp Hd)
    as (r & Hrun & Hraise & Hstatus & Hbody).
  exists sp, r. eexists. split; [exact Hrun|]. cbn [heap posts delivered].
  repeat split.
  - unfold s2; cbn [heap set_heap].
    rewrite insert_app_r_alt by lia. rewrite Nat.sub_diag. reflexivity.
  - intros Hno. rewrite generate_sign_no_secret in Hgen by assumption. congruence.
  - eapply generate_sign_keys; eassumption.
  - eapply caught_returns; eassumption.
Qed.

Lemma unsigned_text (text : json) :
  unsigned {| req_url := "u"; req_headers := json_headers;
              req_json := ∅ ∪ {[ "msg_type" := JStr "text"; "content" := text ]} |}.
Proof.
  unfold unsigned; cbn [req_json]. rewrite (left_id_L ∅ (∪)). split; reflexivity.
Qed.

Lemma send_message_no_secret time_time http self l p s :
  no_secret self = true ->
  heap s !! l = Some (ODict p) ->
  posts (snd (_send_message time_time http self l s))
  = posts s ++ [{| req_url := webhook_url self; req_headers := json_headers; req_json := p |}]
  /\ heap (snd (_send_message time_time http self l s)) = heap s.
Proof.
  intros Hno Hl.
  destruct (send_message_run time_time http self l p s ∅ s Hl
              (generate_sign_no_secret _ _ _ Hno) eq_refl eq_refl eq_refl) as (r & Hrun & _).
  rewrite Hrun; cbn [snd posts heap]. rewrite (left_id_L ∅ (∪)).
  split; [reflexivity|]. apply list_insert_id. assumption.
Qed.

Lemma send_new_unsigned time_time http self d s :
  no_secret self = true ->
  d !! "timestamp" = None -> d !! "sign" = None ->
  exists req,
    posts (snd (send_new time_time http self d s)) = posts s ++ [req] /\ unsigned req.
Proof.
  intros Hno Ht Hs.
  destruct (send_new_run time_time http self d s) as (sp & r & s' & Hrun & _ & Hp & _ & Hsp & _).
  rewrite Hrun; cbn [snd]. eexists. split; [exact Hp|].
  rewrite (Hsp Hno), (left_id_L ∅ (∪)). split; assumption.
Qed.

(** C6: without a secret, [_send_message] posts the dictionary it was given,
    with no field added, and the body of every message built by the
    [send_*] methods of either file has neither a [timestamp] nor a [sign]
    field. *)
Theorem no_secret_body_has_no_signature_fields :
  forall (time_time : nat -> Z) (http : nat -> post_outcome) (self : FeishuRobotSender),
    no_secret self = true ->
    (forall l p s,
        heap s !! l = Some (ODict p) ->
        posts (snd (_send_message time_time http self l s))
        = posts s ++ [{| req_url := webhook_url self; req_headers := json_headers;
                         req_json := p |}])
    /\ (forall text at_users at_all s,
           exists req,
             posts (snd (Demo.send_text_message time_time http self text at_users at_all s))
             = posts s ++ [req] /\ unsigned req)
    /\ (forall title content language s,
           exists req,
             posts (snd (Demo.send_post_message time_time http self title content language s))
             = posts s ++ [req] /\ unsigned req)
    /\ (forall card s,
           exists req,
             posts (snd (Demo.send_card_message time_time http self card s))
             = posts s ++ [req] /\ unsigned req)
    /\ (forall text s,
           exists req,
             posts (snd (PaperBot.send_text_message time_time http self text s))
             = posts s ++ [req] /\ unsigned req)
    /\ (forall card s,
           exists req,
             posts (snd (PaperBot.send_card_message time_time http self card s))
             = posts s ++ [req] /\ unsigned req).
Proof.
  intros time_time http self Hno. split.
  { intros l p s Hl. apply send_message_no_secret; assumption. }
  repeat split; intros;
    (apply (send_new_unsigned time_time http self _ s Hno); reflexivity).
Qed.

Lemma no_secret_body_has_no_signature_fields_witness :
  no_secret plain_sender = true
  /\ exists req,
      posts (snd (Demo.send_text_message example_clock (always accepted) plain_sender
                    "hi" (Some ["u1"; "u2"]) true initial_state))
      = posts initial_state ++ [req] /\ unsigned req.
Proof.
  split; [reflexivity|].
  exact (proj1 (proj2 (no_secret_body_has_no_signature_fields
                         example_clock (always accepted) plain_sender eq_refl))
               "hi" (Some ["u1"; "u2"]) true initial_state).
Defined.

Lemma send_message_result time_time http self l p s :
  heap s !! l = Some (ODict p) ->
  exists sp s1 r s',
    _generate_sign time_time self s = (Ok sp, s1)
    /\ _send_message time_time http self l s = (r, s')
    /\ heap s' = <[l := ODict (sp ∪ p)]> (heap s)
    /\ posts s' = posts s ++ [{| req_url := webhook_url self; req_headers := json_headers;
                                 req_json := sp ∪ p |}]
    /\ delivered s' = delivered s
    /\ (delivery_fails (http (length (posts s))) ->
        exists description,
          r = Ok (RDict {[ "error" := VStr description; "payload" := VRef l ]}))
    /\ (forall d, r = Ok (RDict d) -> d !! "payload" = Some (VRef l))
    /\ (caught (http (length (posts s))) -> exists rp, r = Ok rp)
    /\ (forall e, r = Raise e -> is_RequestException e = false).
Proof.
  intros Hl.
  destruct (generate_sign_frame time_time self s) as (sp & s1 & Hgen & Hh & Hp & Hd).
  destruct (send_message_run time_time http self l p s sp s1 Hl Hgen Hh Hp Hd)
    as (r & Hrun & Hraise & Hstatus & Hbody).
  exists sp, s1, r. eexists. split; [exact Hgen|]. split; [exact Hrun|].
  cbn [heap posts delivered]. repeat split.
  - unfold delivery_fails. destruct (http (length (posts s))) as [e|resp].
    + intros He. rewrite (Hraise e eq_refl), He. eexists; reflexivity.
    + intros Hst. destruct (Hstatus resp eq_refl Hst) as [msg ->]. eexists; reflexivity.
  - intros d Hr. destruct (http (length (posts s))) as [e|resp].
    + rewrite (Hraise e eq_refl) in Hr. destruct (is_RequestException e); [|discriminate].
      unfold error_reply in Hr. simplify_eq. reflexivity.
    + destruct (decide (400 <= status_code resp < 600)) as [Hst|Hst].
      * destruct (Hstatus resp eq_refl Hst) as [msg ->].
        unfold error_reply in Hr. simplify_eq. reflexivity.
      * specialize (Hbody resp eq_refl Hst). destruct (content resp) as [j|msg|e]; subst r.
        -- discriminate Hr.
        -- unfold error_reply in Hr. simplify_eq. reflexivity.
        -- destruct (is_RequestException e); [|discriminate].
           unfold error_reply in Hr. simplify_eq. reflexivity.
  - eapply caught_returns; eassumption.
  - intros e0 Hr. destruct (http (length (posts s))) as [e|resp].
    + rewrite (Hraise e eq_refl) in Hr.
      destruct (is_RequestException e) eqn:He; [discriminate|]. congruence.
    + destruct (decide (400 <= status_code resp < 600)) as [Hst|Hst].
      * destruct (Hstatus resp eq_refl Hst) as [msg ->]. discriminate.
      * specialize (Hbody resp eq_refl Hst). destruct (content resp) as [j|msg|e]; subst r;
          try discriminate.
        destruct (is_RequestException e) eqn:He; [discriminate|]. congruence.
Qed.




(** ** Mentions *)

(** The text a call puts in the payload. *)
Lemma send_text_message_body time_time http self text at_users at_all s :
  exists req,
    posts (snd (Demo.send_text_message time_time http self text at_users at_all s))
    = posts s ++ [req]
    /\ req_json req !! "content"
       = Some (JObj [("text",
                      JStr ((if at_all then Demo.at_token "all" +:+ " " else EmptyString)
                            +:+ match at_users with
                                | Some ((_ :: _) as users) =>
                                    Demo.join " " (map Demo.at_token users) +:+ " " +:+ text
                                | _ => text
                                end))]).
Proof.
  unfold Demo.send_text_message.
  match goal with
  | |- context [bind (new_dict ?d) _] => 
      destruct (send_new_run time_time http self d s)
        as (sp & r & s' & Hrun & _ & Hp & _ & _ & Hkeys)
  end.
  unfold send_new in Hrun. rewrite Hrun; cbn [snd].
  eexists. split; [exact Hp|]. cbn [req_json].
  rewrite lookup_union_r by (apply Hkeys; discriminate).
  destruct at_all; reflexivity.
Qed.

(** C7: [send_text_message("hi", at_users=["u1", "u2"], at_all=True)] puts in
    the payload the all-mention token, then the tokens of u1 and u2 joined by
    spaces, then the text. *)
Theorem mention_composition :
  forall (time_time : nat -> Z) (http : nat -> post_outcome) (self : FeishuRobotSender)
         (s : state),
  exists req text,
    posts (snd (Demo.send_text_message time_time http self "hi" (Some ["u1"; "u2"]) true s))
    = posts s ++ [req]
    /\ req_json req !! "content" = Some (JObj [("text", JStr text)])
    /\ text = hi_with_mentions
    /\ String.prefix hi_with_mentions text = true.
Proof.
  intros time_time http self s.
  destruct (send_text_message_body time_time http self "hi" (Some ["u1"; "u2"]) true s)
    as (req & Hp & Hc).
  exists req. eexists. split; [exact Hp|]. split; [exact Hc|].
  split; vm_compute; reflexivity.
Qed.

(** ** The payload is signed in place *)

(** C10: with a secret, [_send_message] adds [timestamp] and [sign] to the
    caller's dictionary itself, whatever becomes of the POST; the [payload]
    field of the error record is that same dictionary, so it holds the
    signature fields and differs from the payload as it was built.  The
    call returns when the POST and the decoder raise nothing but
    [RequestException]s; what it raises otherwise is no [RequestException],
    and the dictionary is signed all the same. *)
Theorem send_message_signs_payload_in_place :
  forall (time_time : nat -> Z) (http : nat -> post_outcome) (self : FeishuRobotSender)
         (sec : string) (l : loc) (p : gmap string json) (s : state),
    secret self = Some sec -> sec <> EmptyString ->
    heap s !! l = Some (ODict p) ->
    let t := time_time (clock_reads s) in
    let signed := signature t sec [] ∪ p in
    exists r s',
      _send_message time_time http self l s = (r, s')
      /\ heap s' !! l = Some (ODict signed)
      /\ signed !! "timestamp" = Some (JStr (str_of_int t))
      /\ (exists sig, signed !! "sign" = Some (JStr sig))
      /\ (p !! "timestamp" = None \/ p !! "sign" = None -> signed <> p)
      /\ (delivery_fails (http (length (posts s))) ->
          exists description,
            r = Ok (RDict {[ "error" := VStr description; "payload" := VRef l ]}))
      /\ (forall d, r = Ok (RDict d) -> d !! "payload" = Some (VRef l))
      /\ (caught (http (length (posts s))) -> exists reply, r = Ok reply)
      /\ (forall e, r = Raise e -> is_RequestException e = false).
Proof.
  intros time_time http self sec l p s Hsec Hne Hl t signed.
  destruct (send_message_result time_time http self l p s Hl)
    as (sp & s1 & r & s' & Hgen & Hrun & Hh & _ & _ & Herr & Hpay & Hok & Hexn).
  rewrite (generate_sign_configured _ _ sec) in Hgen by assumption.
  injection Hgen as Hsp _. subst sp. fold t in Hh. fold signed in Hh.
  assert (Ht : signed !! "timestamp" = Some (JStr (str_of_int t)))
    by (apply lookup_union_Some_l; reflexivity).
  assert (Hs : exists sig, signed !! "sign" = Some (JStr sig))
    by (eexists; apply lookup_union_Some_l; reflexivity).
  exists r, s'. split; [exact Hrun|]. split.
  { rewrite Hh. apply list_lookup_insert_eq. eapply lookup_lt_Some; eassumption. }
  split; [exact Ht|]. split; [exact Hs|].
  split; [|split; [|split; [|split]]; assumption].
  intros [Hnone|Hnone] Heq; rewrite Heq in *.
  - congruence.
  - destruct Hs as [sig Hs]. congruence.
Qed.

Lemma send_message_signs_payload_in_place_witness :
  secret example_sender = Some "s3cret" /\ "s3cret" <> EmptyString
  /\ heap (one_payload "hi") !! 0%nat = Some (ODict (text_payload "hi"))
  /\ exists r s',
      _send_message example_clock (always rejected) example_sender 0%nat (one_payload "hi")
      = (r, s')
      /\ heap s' !! 0%nat = Some (ODict (signature 1734866362 "s3cret" [] ∪ text_payload "hi"))
      /\ (forall d, r = Ok (RDict d) -> d !! "payload" = Some (VRef 0%nat)).
Proof.
  split; [reflexivity|]. split; [discriminate|]. split; [reflexivity|].
  destruct (send_message_signs_payload_in_place example_clock (always rejected) example_sender
              "s3cret" 0%nat (text_payload "hi") (one_payload "hi")
              eq_refl ltac:(discriminate) eq_refl)
    as (r & s' & Hrun & Hheap & _ & _ & _ & _ & Hpay & _).
  exists r, s'. split; [exact Hrun|]. split; [exact Hheap|exact Hpay].
Defined.

(** ** The feed filter *)

Lemma picked_weaken sent wm e entries n :
  picked sent wm entries n -> picked sent wm (e :: entries) n.
Proof.
  intros (Hgt & Hsent & e' & Hin & Hof). repeat split; try assumption.
  exists e'. split; [right; assumption | assumption].
Qed.

Lemma for_entries_spec astz entries wm l debug :
  forall acc s r s',
    PaperBot.for_entries astz entries wm l debug acc s = (r, s') ->
    s' = s
    /\ forall ns, r = Ok ns ->
         exists new,
           ns = acc ++ new
           /\ Forall (picked (heap s !! l) wm entries) new
           /\ map n_id new `sublist_of` omap derived_id entries.
Proof.
  induction entries as [|e rest IH]; intros acc s r s' H.
  - cbn in H. unfold ret in H. simplify_eq. split; [reflexivity|]. intros ns Hns. simplify_eq.
    exists []. rewrite app_nil_r. repeat split; constructor.
  - cbn [PaperBot.for_entries] in H.
    unfold PaperBot.entry_get_id, PaperBot.debug_entry, getattr, set_contains, lift,
      bind, ret, raise in H.
    destruct (link e) as [lk|] eqn:Hlink; cbv beta iota zeta in H; [|raised H].
    destruct (heap s !! l) as [[d|xs]|] eqn:Hset; cbv beta iota zeta in H;
      [raised H| |raised H].
    set (entry_id := match feed_id e with Some i => i | None => lk end) in *.
    assert (Hid : derived_id e = Some entry_id)
      by (unfold derived_id, entry_id; rewrite Hlink; destruct (feed_id e); reflexivity).
    assert (Homap : omap derived_id (e :: rest) = entry_id :: omap derived_id rest)
      by (cbn [omap list_omap]; rewrite Hid; reflexivity).
    destruct (bool_decide (entry_id ∈ xs)) eqn:Hseen; cbv beta iota zeta in H.
    { apply IH in H as [-> Hns]. split; [reflexivity|]. intros ns Hr.
      destruct (Hns ns Hr) as (new & -> & Hall & Hsub). exists new.
      split; [reflexivity|]. split.
      - rewrite Hset in Hall. eapply Forall_impl; [exact Hall|].
        intros n Hn. apply picked_weaken. exact Hn.
      - rewrite Homap. apply sublist_cons. exact Hsub. }
    apply bool_decide_eq_false in Hseen.
    destruct (published_parsed e) as [parsed|] eqn:Hparsed; cbv beta iota zeta in H;
      [|raised H].
    destruct (datetime_of_parsed parsed) as [published|] eqn:Hdt; cbv beta iota zeta in H;
      [|raised H].
    assert (Hpub : published_time e = Some published)
      by (unfold published_time; rewrite Hparsed, Hdt; reflexivity).
    assert (Hskip : forall r s',
               PaperBot.for_entries astz rest wm l debug acc s = (r, s') ->
               s' = s
               /\ forall ns, r = Ok ns ->
                    exists new,
                      ns = acc ++ new
                      /\ Forall (picked (Some (OSet xs)) wm (e :: rest)) new
                      /\ map n_id new `sublist_of` omap derived_id (e :: rest)).
    { intros r0 s0 H0. apply IH in H0 as [-> Hns]. split; [reflexivity|]. intros ns Hr.
      destruct (Hns ns Hr) as (new & -> & Hall & Hsub). exists new.
      split; [reflexivity|]. split.
      - rewrite Hset in Hall. eapply Forall_impl; [exact Hall|].
        intros n Hn. apply picked_weaken. exact Hn.
      - rewrite Homap. apply sublist_cons. exact Hsub. }
    match type of H with
    | (let (_, _) := ?m s in _) = _ =>
        assert (Hdbg : m s = (Ok tt, s) \/ exists e0, m s = (Raise e0, s))
    end.
    { destruct debug; [|left; reflexivity].
      destruct (title e); [|right; eexists; reflexivity].
      destruct (astz published); [|right; eexists; reflexivity].
      destruct (dt_gt published wm); [left|right; eexists]; reflexivity. }
    destruct Hdbg as [Hdbg|[e0 Hdbg]]; rewrite Hdbg in H; cbv beta iota zeta in H;
      [|raised H].
    destruct (dt_gt published wm) as [[|]|] eqn:Hgt; cbv beta iota zeta in H;
      [|apply Hskip; exact H|raised H].
    destruct (title e) as [t|] eqn:Htitle; cbv beta iota zeta in H; [|raised H].
    destruct (summary e) as [c|] eqn:Hsummary; cbv beta iota zeta in H; [|raised H].
    apply IH in H as [-> Hns]. split; [reflexivity|]. intros ns Hr.
    destruct (Hns ns Hr) as (new & -> & Hall & Hsub).
    eexists (_ :: new). rewrite <- app_assoc. split; [reflexivity|]. split.
    + constructor.
      * repeat split; cbn [n_published n_id n_title n_content]; try assumption.
        -- intros xs' Hxs. simplify_eq. exact Hseen.
        -- exists e. split; [left|]. repeat split; assumption.
      * rewrite Hset in Hall. eapply Forall_impl; [exact Hall|].
        intros n Hn. apply picked_weaken. exact Hn.
    + rewrite Homap. cbn [map n_id]. apply sublist_skip. exact Hsub.
Qed.

Lemma get_new_notifications_spec astz entries last_checked sent debug s r s' :
  PaperBot.get_new_notifications astz entries last_checked sent debug s = (r, s') ->
  s' = s
  /\ forall ns, r = Ok ns ->
       Forall (picked (heap s !! sent) (as_utc last_checked) entries) ns
       /\ map n_id ns `sublist_of` omap derived_id entries.
Proof.
  unfold PaperBot.get_new_notifications. fold (as_utc last_checked). intros H.
  apply for_entries_spec in H as [-> Hns]. split; [reflexivity|].
  intros ns Hr. destruct (Hns ns Hr) as (new & -> & Hall & Hsub). auto.
Qed.

Lemma cmp_tuple_refl (a : list Z) : cmp_tuple a a = Eq.
Proof. induction a as [|x a IH]; [reflexivity|]. cbn. rewrite Z.compare_refl. exact IH. Qed.

(** An aware or a naive value compares equal to itself. *)
Lemma dt_cmp_refl (d : datetime) : dt_cmp d d = Ok Eq.
Proof.
  unfold dt_cmp. destruct (tzinfo d) as [o|].
  - rewrite Z.eqb_refl, cmp_tuple_refl. reflexivity.
  - rewrite cmp_tuple_refl. reflexivity.
Qed.

Lemma dt_gt_true (a b : datetime) : dt_gt a b = Ok true <-> dt_cmp a b = Ok Gt.
Proof.
  unfold dt_gt. destruct (dt_cmp a b) as [[| |]|]; split; intros H; congruence.
Qed.

Example sample_poll :
  PaperBot.get_new_notifications no_overflow sample_feed reference 0%nat true sample_store
  = (Ok [fresh_notification], sample_store).
Proof. vm_compute. reflexivity. Qed.

(** C2: a notification is returned only for an entry whose published time is
    strictly after the watermark; an entry published at or before the
    watermark, and so one published exactly at it, is not returned. *)
Theorem new_notifications_are_strictly_after_the_watermark :
  forall (astz : datetime -> result datetime) (entries : list entry)
         (last_checked : datetime) (sent : loc) (debug : bool)
         (s : state) (ns : list notification) (s' : state),
    PaperBot.get_new_notifications astz entries last_checked sent debug s = (Ok ns, s') ->
    (forall n, n ∈ ns ->
       (exists e, e ∈ entries /\ notification_of e n)
       /\ dt_gt (n_published n) (as_utc last_checked) = Ok true)
    /\ (forall e p, e ∈ entries -> published_time e = Some p ->
          dt_gt p (as_utc last_checked) <> Ok true ->
          forall n, n ∈ ns -> ~ notification_of e n)
    /\ (forall e, e ∈ entries -> published_time e = Some (as_utc last_checked) ->
          forall n, n ∈ ns -> ~ notification_of e n).
Proof.
  intros astz entries last_checked sent debug s ns s' H.
  apply get_new_notifications_spec in H as [_ Hns].
  destruct (Hns ns eq_refl) as [Hall _]. rewrite Forall_forall in Hall.
  assert (Hex : forall e p, e ∈ entries -> published_time e = Some p ->
                  dt_gt p (as_utc last_checked) <> Ok true ->
                  forall n, n ∈ ns -> ~ notification_of e n).
  { intros e p _ Hp Hngt n Hn (_ & _ & _ & Hpub).
    destruct (Hall n Hn) as (Hgt & _). congruence. }
  split; [|split].
  - intros n Hn. destruct (Hall n Hn) as (Hgt & _ & Hex'). split; assumption.
  - exact Hex.
  - intros e He Hp. apply (Hex e _ He Hp).
    rewrite dt_gt_true, dt_cmp_refl. discriminate.
Qed.

Lemma new_notifications_are_strictly_after_the_watermark_witness :
  PaperBot.get_new_notifications no_overflow sample_feed reference 0%nat true sample_store
  = (Ok [fresh_notification], sample_store)
  /\ (forall e, e ∈ sample_feed -> published_time e = Some (as_utc reference) ->
        forall n, n ∈ [fresh_notification] -> ~ notification_of e n).
Proof.
  split; [vm_compute; reflexivity|].
  exact (proj2 (proj2 (new_notifications_are_strictly_after_the_watermark
                         no_overflow sample_feed reference 0%nat true sample_store
                         [fresh_notification] sample_store
                         ltac:(vm_compute; reflexivity)))).
Defined.

(** C3: an entry whose id, the feed's id or else its link, is in the set of
    sent ids is not returned, whatever its published time. *)
Theorem sent_ids_are_excluded :
  forall (astz : datetime -> result datetime) (entries : list entry)
         (last_checked : datetime) (sent : loc) (xs : gset string) (debug : bool)
         (s : state) (ns : list notification) (s' : state),
    heap s !! sent = Some (OSet xs) ->
    PaperBot.get_new_notifications astz entries last_checked sent debug s = (Ok ns, s') ->
    (forall n, n ∈ ns -> n_id n ∉ xs)
    /\ (forall e i, e ∈ entries -> derived_id e = Some i -> i ∈ xs ->
          forall n, n ∈ ns -> ~ notification_of e n).
Proof.
  intros astz entries last_checked sent xs debug s ns s' Hset H.
  apply get_new_notifications_spec in H as [_ Hns].
  destruct (Hns ns eq_refl) as [Hall _]. rewrite Forall_forall in Hall.
  assert (Hout : forall n, n ∈ ns -> n_id n ∉ xs).
  { intros n Hn. destruct (Hall n Hn) as (_ & Hsent & _). apply Hsent. exact Hset. }
  split; [exact Hout|].
  intros e i _ Hid Hin n Hn (Hid' & _). apply (Hout n Hn). congruence.
Qed.

Lemma sent_ids_are_excluded_witness :
  heap sample_store !! 0%nat = Some (OSet {[ "seen" ]})
  /\ PaperBot.get_new_notifications no_overflow sample_feed reference 0%nat true sample_store
     = (Ok [fresh_notification], sample_store)
  /\ (forall n, n ∈ [fresh_notification] -> n_id n ∉ ({[ "seen" ]} : gset string)).
Proof.
  split; [reflexivity|]. split; [vm_compute; reflexivity|].
  exact (proj1 (sent_ids_are_excluded no_overflow sample_feed reference 0%nat {[ "seen" ]}
                  true sample_store [fresh_notification] sample_store eq_refl
                  ltac:(vm_compute; reflexivity))).
Defined.

(** C8: [get_new_notifications] ends in the store it started from: the set
    of sent ids it was given has the elements it had, on a normal return and
    on an exception. *)
Theorem get_new_notifications_leaves_sent_entries :
  forall (astz : datetime -> result datetime) (entries : list entry)
         (last_checked : datetime) (sent : loc) (debug : bool) (s : state),
    snd (PaperBot.get_new_notifications astz entries last_checked sent debug s) = s
    /\ heap (snd (PaperBot.get_new_notifications astz entries last_checked sent debug s))
         !! sent
       = heap s !! sent.
Proof.
  intros astz entries last_checked sent debug s.
  destruct (PaperBot.get_new_notifications astz entries last_checked sent debug s)
    as [r s'] eqn:H.
  apply get_new_notifications_spec in H as [-> _]. split; reflexivity.
Qed.

(** ** The polling loop *)

Section Loop.

Variable time_time : nat -> Z.
Variable http : nat -> post_outcome.
Variable feed : nat -> list entry.
Variable utcnow : nat -> datetime.
Variable astz : datetime -> result datetime.
Variable strftime : datetime -> string.
Variable robot : FeishuRobotSender.
Variable debug : bool.

(** No POST and no decoding raises anything but a [RequestException]: every
    call of [send_card_message] returns. *)
Hypothesis every_outcome_caught : forall k, caught (http k).

Lemma for_notifications_once sent ns :
  forall s r s',
    once sent s ->
    NoDup (map n_id ns) ->
    (forall n xs, n ∈ ns -> heap s !! sent = Some (OSet xs) -> n_id n ∉ xs) ->
    PaperBot.for_notifications time_time http astz strftime robot sent ns s = (r, s') ->
    once sent s'.
Proof.
  induction ns as [|n rest IH]; intros s r s' Hinv Hnd Hnew H.
  - cbn in H. unfold ret in H. simplify_eq. exact Hinv.
  - cbn [PaperBot.for_notifications] in H. unfold bind at 1, lift in H.
    destruct (astz (n_published n)) as [local|] eqn:Hastz;
      [|simplify_eq; exact Hinv].
    unfold bind at 1, PaperBot.note_delivery in H.
    unfold bind at 1 in H.
    change (PaperBot.send_card_message time_time http robot ?card)
      with (send_new time_time http robot
              {[ "msg_type" := JStr "interactive"; "card" := card ]}) in H.
    match type of H with
    | context [send_new _ _ _ ?d ?s1] =>
        destruct (send_new_run time_time http robot d s1)
          as (sp & rp & s2 & Hrun & Hheap & _ & Hdel & _ & _ & Hok)
    end.
    destruct (Hok (every_outcome_caught _)) as [reply ->].
    rewrite Hrun in H. cbn [heap delivered] in Hheap, Hdel. clear Hrun.
    destruct Hinv as (xs & Hset & Hnd' & Hsub).
    assert (Hlt : (sent < length (heap s))%nat) by (eapply lookup_lt_Some; eassumption).
    assert (Hset2 : heap s2 !! sent = Some (OSet xs))
      by (rewrite Hheap, lookup_app_l by assumption; exact Hset).
    unfold bind at 1, set_add in H. rewrite Hset2 in H.
    apply NoDup_cons in Hnd as [Hhead Hnd].
    assert (Hfresh : n_id n ∉ xs) by (eapply Hnew; [left|exact Hset]).
    eapply IH in H; [exact H| |exact Hnd|].
    + exists ({[n_id n]} ∪ xs). cbn [heap delivered set_heap]. split; [|split].
      * apply list_lookup_insert_eq. rewrite Hheap, length_app. lia.
      * rewrite Hdel. apply NoDup_app. split; [exact Hnd'|]. split.
        -- intros i Hi Hi'. apply list_elem_of_singleton in Hi'. subst i.
           apply Hfresh, Hsub, Hi.
        -- apply NoDup_singleton.
      * rewrite Hdel. intros i Hi. apply elem_of_app in Hi as [Hi|Hi].
        -- apply elem_of_union_r, Hsub, Hi.
        -- apply list_elem_of_singleton in Hi. subst i.
           apply elem_of_union_l, elem_of_singleton. reflexivity.
    + intros m xs' Hm Hxs'. cbn [heap set_heap] in Hxs'.
      rewrite list_lookup_insert_eq in Hxs' by (rewrite Hheap, length_app; lia).
      simplify_eq. intros Hin. apply elem_of_union in Hin as [Hin|Hin].
      * apply elem_of_singleton in Hin. apply Hhead.
        rewrite <- Hin. apply list_elem_of_fmap_2. exact Hm.
      * revert Hin. eapply Hnew; [right; exact Hm|exact Hset].
Qed.

Abbreviation iteration := (PaperBot.iteration time_time http feed utcnow astz strftime robot debug).
Abbreviation loop n := (PaperBot.loop time_time http feed utcnow astz strftime n robot debug).

Lemma iteration_locals v s :
  fst (iteration v s)
  = {| PaperBot.last_checked := utcnow (PaperBot.cycles v);
       PaperBot.sent_entries := PaperBot.sent_entries v;
       PaperBot.cycles := S (PaperBot.cycles v) |}.
Proof.
  unfold PaperBot.iteration.
  destruct (try_except _ _ _ s) as [r s']. reflexivity.
Qed.

Lemma iteration_once v s :
  once (PaperBot.sent_entries v) s ->
  NoDup (omap derived_id (feed (PaperBot.cycles v))) ->
  once (PaperBot.sent_entries v) (snd (iteration v s)).
Proof.
  intros Hinv Hnd. unfold PaperBot.iteration, try_except.
  destruct (PaperBot.poll_and_notify _ _ _ _ _ _ _ _ s) as [r s'] eqn:H.
  assert (Hs' : once (PaperBot.sent_entries v) s').
  { unfold PaperBot.poll_and_notify, bind in H.
    destruct (PaperBot.get_new_notifications _ _ _ _ _ s) as [r0 s0] eqn:Hget.
    apply get_new_notifications_spec in Hget as [-> Hns].
    destruct r0 as [ns|e]; [|simplify_eq; exact Hinv].
    destruct (Hns ns eq_refl) as [Hall Hsub]. rewrite Forall_forall in Hall.
    assert (Hrun : PaperBot.for_notifications time_time http astz strftime robot
                     (PaperBot.sent_entries v) ns s = (r, s')).
    { destruct ns; [|exact H]. cbn. exact H. }
    eapply for_notifications_once; [exact Hinv| | |exact Hrun].
    - eapply sublist_NoDup; eassumption.
    - intros n xs Hn Hxs. destruct (Hall n Hn) as (_ & Hout & _). apply Hout. exact Hxs. }
  destruct r; exact Hs'.
Qed.

Lemma loop_once n :
  forall v s,
    once (PaperBot.sent_entries v) s ->
    (forall k, (PaperBot.cycles v <= k < PaperBot.cycles v + n)%nat ->
               NoDup (omap derived_id (feed k))) ->
    once (PaperBot.sent_entries v) (snd (loop n v s)).
Proof.
  induction n as [|n IH]; intros v s Hinv Hfeed; [exact Hinv|].
  cbn [PaperBot.loop].
  pose proof (iteration_locals v s) as Hv.
  pose proof (iteration_once v s Hinv (Hfeed (PaperBot.cycles v) ltac:(lia))) as Hs.
  destruct (iteration v s) as [v' s']. cbn [fst snd] in Hv, Hs. subst v'.
  match goal with
  | |- once _ (snd (PaperBot.loop _ _ _ _ _ _ _ _ _ ?v' _)) =>
      apply (IH v' s'); cbn [PaperBot.sent_entries PaperBot.cycles]; [exact Hs|]
  end.
  intros k Hk. apply Hfeed. lia.
Qed.

(** The loop, one more iteration at the end. *)
Lemma loop_S n :
  forall v s,
    loop (S n) v s = iteration (fst (loop n v s)) (snd (loop n v s)).
Proof.
  induction n as [|n IH]; intros v s.
  - cbn [PaperBot.loop fst snd]. destruct (iteration v s); reflexivity.
  - change (loop (S (S n)) v s)
      with (let '(v', s') := iteration v s in loop (S n) v' s').
    destruct (iteration v s) as [v' s'] eqn:Hit.
    rewrite IH. cbn [PaperBot.loop]. rewrite Hit. reflexivity.
Qed.

Lemma loop_cycles n :
  forall v s, PaperBot.cycles (fst (loop n v s)) = (PaperBot.cycles v + n)%nat.
Proof.
  induction n as [|n IH]; intros v s.
  - cbn. lia.
  - rewrite loop_S, iteration_locals. cbn [PaperBot.cycles]. rewrite IH. lia.
Qed.

Lemma loop_last_checked n v s :
  PaperBot.last_checked (fst (loop (S n) v s)) = utcnow (PaperBot.cycles v + n).
Proof.
  rewrite loop_S, iteration_locals. cbn [PaperBot.last_checked].
  rewrite loop_cycles. reflexivity.
Qed.

End Loop.

Example two_cycles_distinct_feed :
  delivered (snd (PaperBot.main example_clock (always accepted) distinct_feed stopped_clock
                    no_overflow beijing hook false reference 2 initial_state))
  = ["a"; "b"].
Proof. vm_compute. reflexivity. Qed.

(** C4, amended: in one run of the loop an entry id goes to
    [send_card_message] at most once, for every feed history in which no
    single fetch holds the same id twice, as long as no call of
    [send_card_message] raises: what a POST or the decoding of its answer
    raises, if anything, is a [RequestException]. *)
Theorem each_id_is_delivered_at_most_once :
  forall (time_time : nat -> Z) (http : nat -> post_outcome) (feed : nat -> list entry)
         (utcnow : nat -> datetime) (astz : datetime -> result datetime)
         (strftime : datetime -> string) (webhook : string) (debug : bool)
         (reference_utc : datetime) (n : nat) (s : state),
    delivered s = [] ->
    (forall k, (k < n)%nat -> NoDup (omap derived_id (feed k))) ->
    (forall k, caught (http k)) ->
    NoDup (delivered
             (snd (PaperBot.main time_time http feed utcnow astz strftime webhook debug
                     reference_utc n s))).
Proof.
  intros time_time http feed utcnow astz strftime webhook debug reference_utc n s Hd Hfeed
    Hcaught.
  unfold PaperBot.main, new_set.
  match goal with
  | |- NoDup (delivered (snd (PaperBot.loop _ _ _ _ _ _ _ ?robot _ ?v ?s0))) =>
      destruct (loop_once time_time http feed utcnow astz strftime robot debug Hcaught
                  n v s0)
        as (xs & _ & Hnd & _)
  end.
  - exists ∅. cbn [PaperBot.sent_entries heap delivered set_heap]. split; [|split].
    + apply list_lookup_middle. reflexivity.
    + rewrite Hd. constructor.
    + rewrite Hd. intros i Hi. inversion Hi.
  - cbn [PaperBot.cycles]. intros k Hk. apply Hfeed. lia.
  - exact Hnd.
Qed.

Lemma each_id_is_delivered_at_most_once_witness :
  delivered initial_state = []
  /\ (forall k, (k < 2)%nat -> NoDup (omap derived_id (distinct_feed k)))
  /\ (forall k, caught (always accepted k))
  /\ NoDup (delivered
              (snd (PaperBot.main example_clock (always accepted) distinct_feed stopped_clock
                      no_overflow beijing hook false reference 2 initial_state))).
Proof.
  assert (Hfeed : forall k, (k < 2)%nat -> NoDup (omap derived_id (distinct_feed k)))
    by (intros k _; apply (bool_decide_unpack _); vm_compute; exact I).
  assert (Hcaught : forall k, caught (always accepted k))
    by (intros k; right; intros e He; discriminate He).
  split; [reflexivity|]. split; [exact Hfeed|]. split; [exact Hcaught|].
  exact (each_id_is_delivered_at_most_once example_clock (always accepted) distinct_feed
           stopped_clock no_overflow beijing hook false reference 2 initial_state
           eq_refl Hfeed Hcaught).
Defined.

(** C4 as stated fails, in two ways.  A fetch that holds the same id twice
    has it delivered twice in that cycle.  And when the decoding of the
    answer raises a [ValueError], which [_send_message] does not catch, the
    id is not added to the sent ids: an entry dated after the clock is
    delivered again in the next cycle, although no fetch repeats an id. *)
Lemma repeated_id_is_delivered_twice :
  delivered (snd (PaperBot.main example_clock (always accepted) repeated_feed stopped_clock
                    no_overflow beijing hook false reference 1 initial_state))
  = ["dup"; "dup"]
  /\ ~ NoDup (delivered
                (snd (PaperBot.main example_clock (always accepted) repeated_feed
                        stopped_clock no_overflow beijing hook false reference 1
                        initial_state)))
  /\ (forall k, NoDup (omap derived_id (distinct_feed k)))
  /\ delivered (snd (PaperBot.main example_clock (always big_integer) distinct_feed
                       stopped_clock no_overflow beijing hook false reference 2
                       initial_state))
     = ["a"; "a"]
  /\ ~ NoDup (delivered
                (snd (PaperBot.main example_clock (always big_integer) distinct_feed
                        stopped_clock no_overflow beijing hook false reference 2
                        initial_state))).
Proof.
  assert (E : delivered
                (snd (PaperBot.main example_clock (always accepted) repeated_feed
                        stopped_clock no_overflow beijing hook false reference 1
                        initial_state))
              = ["dup"; "dup"]) by (vm_compute; reflexivity).
  assert (E' : delivered
                 (snd (PaperBot.main example_clock (always big_integer) distinct_feed
                         stopped_clock no_overflow beijing hook false reference 2
                         initial_state))
               = ["a"; "a"]) by (vm_compute; reflexivity).
  assert (Hdup : forall x : string, ~ NoDup [x; x]).
  { intros x H. apply NoDup_cons in H as [H _]. apply H. left. }
  split; [exact E|]. split; [rewrite E; apply Hdup|]. split.
  { intros k. apply (bool_decide_unpack _). vm_compute. exact I. }
  split; [exact E'|]. rewrite E'. apply Hdup.
Qed.

(** C9, amended: after every iteration, whatever happened in it, the
    watermark is the reading of the clock that ends the iteration; it does
    not move backward when the readings of the clock do not and the first
    one is not before the reference time. *)
Theorem watermark_is_the_clock_reading :
  forall (time_time : nat -> Z) (http : nat -> post_outcome) (feed : nat -> list entry)
         (utcnow : nat -> datetime) (astz : datetime -> result datetime)
         (strftime : datetime -> string) (webhook : string) (debug : bool)
         (reference_utc : datetime) (s : state),
    (forall k,
        watermark time_time http feed utcnow astz strftime webhook debug reference_utc s (S k)
        = utcnow k)
    /\ (dt_le reference_utc (utcnow 0%nat) = Ok true ->
        (forall k, dt_le (utcnow k) (utcnow (S k)) = Ok true) ->
        forall k,
          dt_le
            (watermark time_time http feed utcnow astz strftime webhook debug reference_utc s k)
            (watermark time_time http feed utcnow astz strftime webhook debug reference_utc s
               (S k))
          = Ok true).
Proof.
  intros time_time http feed utcnow astz strftime webhook debug reference_utc s.
  assert (Hread : forall k,
             watermark time_time http feed utcnow astz strftime webhook debug
               reference_utc s (S k) = utcnow k).
  { intros k. unfold watermark, PaperBot.main, new_set.
    rewrite loop_last_checked. reflexivity. }
  split; [exact Hread|].
  intros Hfirst Hclock k. rewrite Hread. destruct k as [|k].
  - exact Hfirst.
  - rewrite Hread. apply Hclock.
Qed.

Lemma ticking_clock_le (k : nat) : dt_le (ticking_clock k) (ticking_clock (S k)) = Ok true.
Proof.
  unfold dt_le, dt_cmp, ticking_clock; cbn.
  destruct (Z.min 999999 (Z.of_nat k) ?= Z.min 999999 (Z.of_nat (S k))) eqn:E;
    try reflexivity.
  exfalso. apply Z.compare_gt_iff in E. lia.
Qed.

Lemma watermark_is_the_clock_reading_witness :
  dt_le reference (ticking_clock 0%nat) = Ok true
  /\ (forall k, dt_le (ticking_clock k) (ticking_clock (S k)) = Ok true)
  /\ forall k,
      dt_le
        (watermark example_clock (always accepted) distinct_feed ticking_clock no_overflow
           beijing hook false reference initial_state k)
        (watermark example_clock (always accepted) distinct_feed ticking_clock no_overflow
           beijing hook false reference initial_state (S k))
      = Ok true.
Proof.
  split; [reflexivity|]. split; [exact ticking_clock_le|].
  exact (proj2 (watermark_is_the_clock_reading example_clock (always accepted) distinct_feed
                  ticking_clock no_overflow beijing hook false reference initial_state)
               eq_refl ticking_clock_le).
Defined.

(** C9 as stated fails: with a reference time later than the clock, the
    first iteration moves the watermark backward. *)
Lemma watermark_moves_backward :
  dt_le
    (watermark example_clock (always accepted) distinct_feed stopped_clock no_overflow
       beijing hook false (at_utc 2030 1 1 0 0 0) initial_state 0)
    (watermark example_clock (always accepted) distinct_feed stopped_clock no_overflow
       beijing hook false (at_utc 2030 1 1 0 0 0) initial_state 1)
  = Ok false.
Proof. vm_compute. reflexivity. Qed.

(** * Further properties of the code *)

(** ** The shape of a signature *)

Lemma be_bytes_length (n : nat) (x : Z) : length (Sha256.be_bytes n x) = n.
Proof. induction n as [|n IH]; [reflexivity|]. cbn [Sha256.be_bytes length]. rewrite IH. reflexivity. Qed.

Lemma compress_length (h blk : list Z) :
  length h = 8%nat -> length (Sha256.compress h blk) = 8%nat.
Proof.
  intros Hh. unfold Sha256.compress.
  rewrite List.length_map, List.length_combine, Hh. reflexivity.
Qed.

Lemma fold_compress_length (blocks : list (list Z)) :
  forall h, length h = 8%nat -> length (fold_left Sha256.compress blocks h) = 8%nat.
Proof.
  induction blocks as [|blk blocks IH]; intros h Hh; [exact Hh|].
  cbn [fold_left]. apply IH. apply compress_length. exact Hh.
Qed.

Lemma concat_be_bytes_length (ws : list Z) :
  length (concat (map (Sha256.be_bytes 4) ws)) = (4 * length ws)%nat.
Proof.
  induction ws as [|w ws IH]; [reflexivity|].
  cbn [map concat]. rewrite length_app, be_bytes_length, IH. cbn [length]. lia.
Qed.

(** A digest has 32 bytes, whatever was hashed. *)
Lemma sha256_length (data : bytes) : length (Sha256.sha256 data) = 32%nat.
Proof.
  unfold Sha256.sha256, Sha256.hash_Z.
  rewrite List.length_map, concat_be_bytes_length, fold_compress_length; reflexivity.
Qed.

Lemma hmac_length (key data : bytes) : length (Hmac.HMAC_SHA256 key data) = 32%nat.
Proof. unfold Hmac.HMAC_SHA256. apply sha256_length. Qed.

(** Four characters for every three bytes, the last group padded. *)
Lemma encode_length (n : nat) :
  forall l : list Z,
    (length l < n)%nat -> length (Base64.encode l) = (4 * ((length l + 2) / 3))%nat.
Proof.
  induction n as [|n IH]; intros l Hlen; [lia|].
  destruct l as [|a [|b [|c rest]]]; try reflexivity.
  cbn [Base64.encode length]. rewrite IH by (cbn [length] in Hlen; lia).
  replace (S (S (S (length rest))) + 2)%nat with (length rest + 2 + 1 * 3)%nat by lia.
  rewrite Nat.div_add by lia. lia.
Qed.

Lemma b64encode_length (data : bytes) :
  length (Base64.b64encode data) = (4 * ((length data + 2) / 3))%nat.
Proof.
  unfold Base64.b64encode.
  rewrite (encode_length (S (length (map Z_of_byte data)))) by lia.
  rewrite List.length_map. reflexivity.
Qed.

Lemma str_of_bytes_length (b : bytes) : str_len (str_of_bytes b) = length b.
Proof.
  unfold str_len, str_of_bytes, string_of_list_byte.
  induction b as [|x b IH]; [reflexivity|].
  cbn [map string_of_list_ascii String.length length]. rewrite IH. reflexivity.
Qed.

Lemma generate_sign_fields_of_signature (t : Z) (sec : string) :
  exists sig,
    str_field (signature t sec []) "timestamp" = Some (str_of_int t)
    /\ str_field (signature t sec []) "sign" = Some sig
    /\ str_len sig = 44%nat.
Proof.
  eexists. split; [reflexivity|]. split; [reflexivity|].
  rewrite str_of_bytes_length, b64encode_length, hmac_length. reflexivity.
Qed.

(** X1: with a non-empty secret, the [timestamp] field of [_generate_sign]
    reads back as the integer the clock gave, and the [sign] field is a
    string of 44 characters, whatever the secret and the time. *)
Theorem generate_sign_timestamp_reads_back_and_sign_has_44_characters :
  forall (time_time : nat -> Z) (self : FeishuRobotSender) (sec : string) (s : state),
    secret self = Some sec -> sec <> EmptyString ->
    exists fields ts sig,
      fst (_generate_sign time_time self s) = Ok fields
      /\ str_field fields "timestamp" = Some ts
      /\ int_of_str ts = time_time (clock_reads s)
      /\ str_field fields "sign" = Some sig
      /\ str_len sig = 44%nat.
Proof.
  intros time_time self sec s Hsec Hne.
  rewrite (generate_sign_configured _ _ _ _ Hsec Hne). cbn [fst].
  destruct (generate_sign_fields_of_signature (time_time (clock_reads s)) sec)
    as (sig & Hts & Hsig & Hlen).
  eexists _, _, sig. split; [reflexivity|]. split; [exact Hts|].
  split; [apply int_of_str_of_int|]. split; assumption.
Qed.

Lemma generate_sign_timestamp_reads_back_and_sign_has_44_characters_witness :
  secret example_sender = Some "s3cret" /\ "s3cret" <> EmptyString
  /\ exists fields ts sig,
      fst (_generate_sign example_clock example_sender initial_state) = Ok fields
      /\ str_field fields "timestamp" = Some ts
      /\ int_of_str ts = example_clock (clock_reads initial_state)
      /\ str_field fields "sign" = Some sig
      /\ str_len sig = 44%nat.
Proof.
  split; [reflexivity|]. split; [discriminate|].
  exact (generate_sign_timestamp_reads_back_and_sign_has_44_characters
           example_clock example_sender "s3cret" initial_state eq_refl ltac:(discriminate)).
Defined.

(** ** What [_send_message] does with every outcome of the POST *)

(** X2: for a payload that is a dictionary, no [RequestException] comes out
    of [_send_message]: the call returns a parsed body, or returns an error
    dictionary whose [payload] is the caller's dictionary, or raises an
    exception of another class, which the POST or the decoder raised.  It
    returns whenever the POST and the decoder raise nothing else than
    [RequestException]s. *)
Theorem send_message_lets_no_request_exception_out :
  forall (time_time : nat -> Z) (http : nat -> post_outcome) (self : FeishuRobotSender)
         (l : loc) (p : gmap string json) (s : state),
    heap s !! l = Some (ODict p) ->
    exists r s',
      _send_message time_time http self l s = (r, s')
      /\ ((exists j, r = Ok (RJson j))
          \/ (exists description,
                r = Ok (RDict {[ "error" := VStr description; "payload" := VRef l ]}))
          \/ (exists e,
                r = Raise e /\ is_RequestException e = false
                /\ (http (length (posts s)) = PostRaises e
                    \/ exists resp,
                         http (length (posts s)) = PostReturns resp
                         /\ content resp = Unreadable e)))
      /\ (caught (http (length (posts s))) -> exists reply, r = Ok reply).
Proof.
  intros time_time http self l p s Hl.
  destruct (generate_sign_frame time_time self s) as (sp & s1 & Hgen & Hh & Hp & Hd).
  destruct (send_message_run time_time http self l p s sp s1 Hl Hgen Hh Hp Hd)
    as (r & Hrun & Hraise & Hstatus & Hbody).
  exists r. eexists. split; [exact Hrun|].
  split; [|eapply caught_returns; eassumption].
  destruct (http (length (posts s))) as [e|resp].
  - rewrite (Hraise e eq_refl). destruct (is_RequestException e) eqn:He.
    + right; left. eexists; reflexivity.
    + right; right. exists e. auto.
  - destruct (decide (400 <= status_code resp < 600)) as [Hst|Hst].
    + right; left. destruct (Hstatus resp eq_refl Hst) as [msg ->]. eexists; reflexivity.
    + specialize (Hbody resp eq_refl Hst).
      destruct (content resp) as [j|msg|e] eqn:Hc; subst r.
      * left. eexists; reflexivity.
      * right; left. eexists; reflexivity.
      * destruct (is_RequestException e) eqn:He.
        -- right; left. eexists; reflexivity.
        -- right; right. exists e. split; [reflexivity|]. split; [exact He|].
           right. exists resp. auto.
Qed.

Lemma send_message_lets_no_request_exception_out_witness :
  heap (one_payload "hi") !! 0%nat = Some (ODict (text_payload "hi"))
  /\ exists r s',
      _send_message example_clock bad_location example_sender 0%nat (one_payload "hi")
      = (r, s')
      /\ ((exists j, r = Ok (RJson j))
          \/ (exists description,
                r = Ok (RDict {[ "error" := VStr description; "payload" := VRef 0%nat ]}))
          \/ (exists e,
                r = Raise e /\ is_RequestException e = false
                /\ (bad_location (length (posts (one_payload "hi"))) = PostRaises e
                    \/ exists resp,
                         bad_location (length (posts (one_payload "hi"))) = PostReturns resp
                         /\ content resp = Unreadable e))).
Proof.
  split; [reflexivity|].
  destruct (send_message_lets_no_request_exception_out example_clock bad_location
              example_sender 0%nat (text_payload "hi") (one_payload "hi") eq_refl)
    as (r & s' & Hrun & Hcases & _).
  exists r, s'. split; [exact Hrun|exact Hcases].
Defined.

(** X3: when the endpoint answers with a status outside 400..599 and
    [response.json()] returns a value, [_send_message] returns that value as
    it is. *)
Theorem send_message_returns_the_parsed_body :
  forall (time_time : nat -> Z) (http : nat -> post_outcome) (self : FeishuRobotSender)
         (l : loc) (p : gmap string json) (s : state) (resp : response) (j : json),
    heap s !! l = Some (ODict p) ->
    http (length (posts s)) = PostReturns resp ->
    ~ 400 <= status_code resp < 600 ->
    content resp = JsonBody j ->
    fst (_send_message time_time http self l s) = Ok (RJson j).
Proof.
  intros time_time http self l p s resp j Hl Ho Hst Hc.
  destruct (generate_sign_frame time_time self s) as (sp & s1 & Hgen & Hh & Hp & Hd).
  destruct (send_message_run time_time http self l p s sp s1 Hl Hgen Hh Hp Hd)
    as (r & Hrun & _ & _ & Hbody).
  specialize (Hbody resp Ho Hst). rewrite Hc in Hbody. rewrite Hrun, Hbody. reflexivity.
Qed.

Lemma send_message_returns_the_parsed_body_witness :
  heap (one_payload "hi") !! 0%nat = Some (ODict (text_payload "hi"))
  /\ always accepted (length (posts (one_payload "hi"))) = PostReturns accepted
  /\ ~ 400 <= status_code accepted < 600
  /\ content accepted = JsonBody (JObj [("StatusCode", JNum 0); ("msg", JStr "success")])
  /\ fst (_send_message example_clock (always accepted) example_sender 0%nat
            (one_payload "hi"))
     = Ok (RJson (JObj [("StatusCode", JNum 0); ("msg", JStr "success")])).
Proof.
  split; [reflexivity|]. split; [reflexivity|]. split; [simpl; lia|]. split; [reflexivity|].
  apply (send_message_returns_the_parsed_body example_clock (always accepted) example_sender
           0%nat (text_payload "hi") (one_payload "hi") accepted); 
    [reflexivity | reflexivity | simpl; lia | reflexivity].
Defined.

(** A 200 answer that the decoder refuses with a [ValueError]: the exception
    comes out of [_send_message], and out of [send_card_message]. *)
Example big_integer_answer_raises :
  fst (_send_message example_clock (always big_integer) plain_sender 0%nat (one_payload "hi"))
  = Raise (ValueError "Exceeds the limit (4300 digits) for integer string conversion").
Proof. vm_compute. reflexivity. Qed.

(** X4: a response with a status outside 400..599 whose body is not JSON is
    a failure too: the error dictionary carries the message of the decoder
    and the payload. *)
Theorem send_message_body_not_json_is_a_failure :
  forall (time_time : nat -> Z) (http : nat -> post_outcome) (self : FeishuRobotSender)
         (l : loc) (p : gmap string json) (s : state) (resp : response) (msg : string),
    heap s !! l = Some (ODict p) ->
    http (length (posts s)) = PostReturns resp ->
    ~ 400 <= status_code resp < 600 ->
    content resp = NotJson msg ->
    fst (_send_message time_time http self l s)
    = Ok (RDict {[ "error" := VStr msg; "payload" := VRef l ]}).
Proof.
  intros time_time http self l p s resp msg Hl Ho Hst Hc.
  destruct (generate_sign_frame time_time self s) as (sp & s1 & Hgen & Hh & Hp & Hd).
  destruct (send_message_run time_time http self l p s sp s1 Hl Hgen Hh Hp Hd)
    as (r & Hrun & _ & _ & Hbody).
  specialize (Hbody resp Ho Hst). rewrite Hc in Hbody. rewrite Hrun, Hbody. reflexivity.
Qed.

Lemma send_message_body_not_json_is_a_failure_witness :
  heap (one_payload "hi") !! 0%nat = Some (ODict (text_payload "hi"))
  /\ always not_json (length (posts (one_payload "hi"))) = PostReturns not_json
  /\ ~ 400 <= status_code not_json < 600
  /\ content not_json = NotJson "Expecting value: line 1 column 1 (char 0)"
  /\ fst (_send_message example_clock (always not_json) example_sender 0%nat
            (one_payload "hi"))
     = Ok (RDict {[ "error" := VStr "Expecting value: line 1 column 1 (char 0)";
                    "payload" := VRef 0%nat ]}).
Proof.
  split; [reflexivity|]. split; [reflexivity|]. split; [simpl; lia|]. split; [reflexivity|].
  apply (send_message_body_not_json_is_a_failure example_clock (always not_json)
           example_sender 0%nat (text_payload "hi") (one_payload "hi") not_json);
    [reflexivity | reflexivity | simpl; lia | reflexivity].
Defined.

(** X5: one call issues exactly one POST, to the configured URL with the
    JSON content type, whose body is the caller's dictionary as the call
    leaves it; no object is created and every other object of the store is
    left as it was. *)
Theorem send_message_posts_once_and_touches_only_the_payload :
  forall (time_time : nat -> Z) (http : nat -> post_outcome) (self : FeishuRobotSender)
         (l : loc) (p : gmap string json) (s : state),
    heap s !! l = Some (ODict p) ->
    exists body,
      posts (snd (_send_message time_time http self l s))
      = posts s ++ [{| req_url := webhook_url self;
                       req_headers := [("Content-Type", "application/json")];
                       req_json := body |}]
      /\ heap (snd (_send_message time_time http self l s)) !! l = Some (ODict body)
      /\ length (heap (snd (_send_message time_time http self l s))) = length (heap s)
      /\ (forall l', l' <> l ->
            heap (snd (_send_message time_time http self l s)) !! l' = heap s !! l')
      /\ delivered (snd (_send_message time_time http self l s)) = delivered s.
Proof.
  intros time_time http self l p s Hl.
  destruct (send_message_result time_time http self l p s Hl)
    as (sp & s1 & r & s' & _ & Hrun & Hh & Hp & Hd & _).
  rewrite Hrun; cbn [snd]. exists (sp ∪ p).
  split; [exact Hp|]. rewrite Hh. split; [|split; [|split]].
  - apply list_lookup_insert_eq. eapply lookup_lt_Some; eassumption.
  - apply length_insert.
  - intros l' Hne. apply list_lookup_insert_ne. congruence.
  - exact Hd.
Qed.

Lemma send_message_posts_once_and_touches_only_the_payload_witness :
  heap two_objects !! 0%nat = Some (ODict (text_payload "hi"))
  /\ exists body,
      posts (snd (_send_message example_clock (always accepted) example_sender 0%nat
                    two_objects))
      = posts two_objects ++ [{| req_url := webhook_url example_sender;
                                 req_headers := [("Content-Type", "application/json")];
                                 req_json := body |}]
      /\ heap (snd (_send_message example_clock (always accepted) example_sender 0%nat
                      two_objects)) !! 1%nat
         = Some (OSet {[ "seen" ]}).
Proof.
  split; [reflexivity|].
  destruct (send_message_posts_once_and_touches_only_the_payload example_clock
              (always accepted) example_sender 0%nat (text_payload "hi") two_objects eq_refl)
    as (body & Hp & _ & _ & Hother & _).
  exists body. split; [exact Hp|].
  exact (eq_trans (Hother 1%nat ltac:(discriminate)) eq_refl).
Defined.

(** ** Sending the same dictionary twice *)

Lemma signature_union_twice (t1 t2 : Z) (sec : string) (p : gmap string json) :
  signature t2 sec [] ∪ (signature t1 sec [] ∪ p) = signature t2 sec [] ∪ p.
Proof.
  apply map_eq. intros k. rewrite !lookup_union. unfold signature.
  destruct (decide (k = "timestamp")) as [->|Ht].
  - rewrite !lookup_insert_eq. destruct (p !! "timestamp"); reflexivity.
  - rewrite !lookup_insert_ne by congruence.
    destruct (decide (k = "sign")) as [->|Hs].
    + rewrite !lookup_singleton_eq. destruct (p !! "sign"); reflexivity.
    + rewrite !lookup_singleton_ne by congruence. destruct (p !! k); reflexivity.
Qed.

Lemma send_message_signed_state time_time http self sec l p s :
  secret self = Some sec -> sec <> EmptyString ->
  heap s !! l = Some (ODict p) ->
  heap (snd (_send_message time_time http self l s))
  = <[l := ODict (signature (time_time (clock_reads s)) sec [] ∪ p)]> (heap s)
  /\ clock_reads (snd (_send_message time_time http self l s)) = S (clock_reads s)
  /\ posts (snd (_send_message time_time http self l s))
     = posts s ++ [{| req_url := webhook_url self; req_headers := json_headers;
                      req_json := signature (time_time (clock_reads s)) sec [] ∪ p |}].
Proof.
  intros Hsec Hne Hl.
  destruct (send_message_run time_time http self l p s _ _ Hl
              (generate_sign_configured time_time self sec s Hsec Hne)
              eq_refl eq_refl eq_refl) as (r & Hrun & _).
  rewrite Hrun. cbn [snd heap clock_reads posts]. auto.
Qed.

(** X6: with a secret, sending a dictionary that was sent before signs it
    anew: its [timestamp] and [sign] are those of the second clock reading,
    the first signature is gone and the other fields are kept. *)
Theorem sending_again_replaces_the_signature :
  forall (time_time : nat -> Z) (http : nat -> post_outcome) (self : FeishuRobotSender)
         (sec : string) (l : loc) (p : gmap string json) (s : state),
    secret self = Some sec -> sec <> EmptyString ->
    heap s !! l = Some (ODict p) ->
    heap (snd (_send_message time_time http self l
                 (snd (_send_message time_time http self l s)))) !! l
    = Some (ODict (signature (time_time (S (clock_reads s))) sec [] ∪ p)).
Proof.
  intros time_time http self sec l p s Hsec Hne Hl.
  assert (Hlt : (l < length (heap s))%nat) by (eapply lookup_lt_Some; eassumption).
  destruct (send_message_signed_state time_time http self sec l p s Hsec Hne Hl)
    as (Hh1 & Hc1 & _).
  set (s1 := snd (_send_message time_time http self l s)) in *.
  assert (Hl1 : heap s1 !! l
                = Some (ODict (signature (time_time (clock_reads s)) sec [] ∪ p)))
    by (rewrite Hh1; apply list_lookup_insert_eq; exact Hlt).
  destruct (send_message_signed_state time_time http self sec l _ s1 Hsec Hne Hl1)
    as (Hh2 & _ & _).
  rewrite Hh2, Hc1, signature_union_twice.
  apply list_lookup_insert_eq. rewrite Hh1, length_insert. exact Hlt.
Qed.

Lemma sending_again_replaces_the_signature_witness :
  secret example_sender = Some "s3cret" /\ "s3cret" <> EmptyString
  /\ heap (one_payload "hi") !! 0%nat = Some (ODict (text_payload "hi"))
  /\ heap (snd (_send_message (fun k => 1734866362 + Z.of_nat k) (always accepted)
                  example_sender 0%nat
                  (snd (_send_message (fun k => 1734866362 + Z.of_nat k) (always accepted)
                          example_sender 0%nat (one_payload "hi"))))) !! 0%nat
     = Some (ODict (signature 1734866363 "s3cret" [] ∪ text_payload "hi")).
Proof.
  split; [reflexivity|]. split; [discriminate|]. split; [reflexivity|].
  exact (sending_again_replaces_the_signature (fun k => 1734866362 + Z.of_nat k)
           (always accepted) example_sender "s3cret" 0%nat (text_payload "hi")
           (one_payload "hi") eq_refl ltac:(discriminate) eq_refl).
Defined.

(** ** What the [send_*] methods put in the body *)

Lemma send_new_body time_time http self d s :
  exists req,
    posts (snd (send_new time_time http self d s)) = posts s ++ [req]
    /\ req_url req = webhook_url self
    /\ (forall k, k <> "timestamp" -> k <> "sign" -> req_json req !! k = d !! k).
Proof.
  destruct (send_new_run time_time http self d s)
    as (sp & r & s' & Hrun & _ & Hp & _ & _ & Hkeys).
  rewrite Hrun; cbn [snd]. eexists. split; [exact Hp|]. cbn [req_url req_json].
  split; [reflexivity|]. intros k Ht Hs. apply lookup_union_r. apply Hkeys; assumption.
Qed.

Lemma send_new_signed time_time http self sec d s :
  secret self = Some sec -> sec <> EmptyString ->
  exists req,
    posts (snd (send_new time_time http self d s)) = posts s ++ [req]
    /\ req_json req = signature (time_time (clock_reads s)) sec [] ∪ d.
Proof.
  intros Hsec Hne. unfold send_new, bind at 1, new_dict.
  set (s2 := set_heap (heap s ++ [ODict d]) s).
  assert (Hl : heap s2 !! length (heap s) = Some (ODict d))
    by (unfold s2; cbn [heap set_heap]; apply list_lookup_middle; reflexivity).
  destruct (send_message_signed_state time_time http self sec _ d s2 Hsec Hne Hl)
    as (_ & _ & Hp).
  eexists. split; [exact Hp|]. reflexivity.
Qed.

(** X7: [send_card_message], in both files and with or without a secret,
    posts a body whose [msg_type] is "interactive" and whose [card] is the
    card it was given, unchanged. *)
Theorem card_reaches_the_body_unchanged :
  forall (time_time : nat -> Z) (http : nat -> post_outcome) (self : FeishuRobotSender)
         (card : json) (s : state),
    (exists req,
        posts (snd (Demo.send_card_message time_time http self card s)) = posts s ++ [req]
        /\ req_json req !! "msg_type" = Some (JStr "interactive")
        /\ req_json req !! "card" = Some card)
    /\ (exists req,
           posts (snd (PaperBot.send_card_message time_time http self card s))
           = posts s ++ [req]
           /\ req_json req !! "msg_type" = Some (JStr "interactive")
           /\ req_json req !! "card" = Some card).
Proof.
  intros time_time http self card s.
  destruct (send_new_body time_time http self
              {[ "msg_type" := JStr "interactive"; "card" := card ]} s)
    as (req & Hp & _ & Hk).
  split; exists req; (split; [exact Hp|]);
    (split; [rewrite Hk by discriminate; reflexivity|]);
    rewrite Hk by discriminate; reflexivity.
Qed.

(** X8: [send_post_message] posts a body whose [msg_type] is "post" and
    whose [content] holds the title and the content under the language key,
    inside [post]; the content is passed through as it is. *)
Theorem post_reaches_the_body_under_its_language :
  forall (time_time : nat -> Z) (http : nat -> post_outcome) (self : FeishuRobotSender)
         (title : string) (content : json) (language : string) (s : state),
  exists req,
    posts (snd (Demo.send_post_message time_time http self title content language s))
    = posts s ++ [req]
    /\ req_json req !! "msg_type" = Some (JStr "post")
    /\ req_json req !! "content"
       = Some (JObj [("post",
                      JObj [(language,
                             JObj [("title", JStr title); ("content", content)])])]).
Proof.
  intros time_time http self title content language s.
  unfold Demo.send_post_message.
  match goal with
  | |- context [bind (new_dict ?d) _] =>
      destruct (send_new_body time_time http self d s) as (req & Hp & _ & Hk)
  end.
  exists req. split; [exact Hp|].
  split; rewrite Hk by discriminate; reflexivity.
Qed.

(** X9: with a non-empty secret, the body of every [send_*] method of both
    files carries [timestamp], the decimal string of the clock reading, and
    a [sign] string, at the top level beside the message fields. *)
Theorem secret_puts_the_signature_in_every_body :
  forall (time_time : nat -> Z) (http : nat -> post_outcome) (self : FeishuRobotSender)
         (sec : string),
    secret self = Some sec -> sec <> EmptyString ->
    let signed (s s' : state) :=
      exists req sig,
        posts s' = posts s ++ [req]
        /\ req_json req !! "timestamp" = Some (JStr (str_of_int (time_time (clock_reads s))))
        /\ req_json req !! "sign" = Some (JStr sig) in
    (forall text at_users at_all s,
        signed s (snd (Demo.send_text_message time_time http self text at_users at_all s)))
    /\ (forall title content language s,
           signed s (snd (Demo.send_post_message time_time http self title content
                            language s)))
    /\ (forall card s, signed s (snd (Demo.send_card_message time_time http self card s)))
    /\ (forall text s, signed s (snd (PaperBot.send_text_message time_time http self text s)))
    /\ (forall card s,
           signed s (snd (PaperBot.send_card_message time_time http self card s))).
Proof.
  intros time_time http self sec Hsec Hne signed.
  assert (H : forall d s, signed s (snd (send_new time_time http self d s))).
  { intros d s. destruct (send_new_signed time_time http self sec d s Hsec Hne)
      as (req & Hp & Hj).
    exists req. eexists. split; [exact Hp|]. rewrite Hj.
    split; apply lookup_union_Some_l; reflexivity. }
  repeat split; intros; apply H.
Qed.

Lemma secret_puts_the_signature_in_every_body_witness :
  secret example_sender = Some "s3cret" /\ "s3cret" <> EmptyString
  /\ exists req sig,
      posts (snd (PaperBot.send_card_message example_clock (always accepted) example_sender
                    (JObj []) initial_state))
      = posts initial_state ++ [req]
      /\ req_json req !! "timestamp"
         = Some (JStr (str_of_int (example_clock (clock_reads initial_state))))
      /\ req_json req !! "sign" = Some (JStr sig).
Proof.
  split; [reflexivity|]. split; [discriminate|].
  exact (proj2 (proj2 (proj2 (proj2
           (secret_puts_the_signature_in_every_body example_clock (always accepted)
              example_sender "s3cret" eq_refl ltac:(discriminate)))))
           (JObj []) initial_state).
Defined.

(** X10: with nobody to mention, [at_users] absent or an empty list, the
    demo's [send_text_message] posts the text as given when [at_all] is
    false, and the all-mention token, one space and the text when it is
    true. *)
Theorem text_without_users_is_sent_as_given :
  forall (time_time : nat -> Z) (http : nat -> post_outcome) (self : FeishuRobotSender)
         (text : string) (at_users : option (list string)) (at_all : bool) (s : state),
    at_users = None \/ at_users = Some [] ->
    exists req,
      posts (snd (Demo.send_text_message time_time http self text at_users at_all s))
      = posts s ++ [req]
      /\ req_json req !! "msg_type" = Some (JStr "text")
      /\ req_json req !! "content"
         = Some (JObj [("text",
                        JStr (if at_all then Demo.at_token "all" +:+ " " +:+ text
                              else text))]).
Proof.
  intros time_time http self text at_users at_all s Hnone.
  unfold Demo.send_text_message.
  match goal with
  | |- context [bind (new_dict ?d) _] =>
      destruct (send_new_body time_time http self d s) as (req & Hp & _ & Hk)
  end.
  exists req. split; [exact Hp|].
  split; rewrite Hk by discriminate; [reflexivity|].
  destruct Hnone as [-> | ->]; destruct at_all; reflexivity.
Qed.

Lemma text_without_users_is_sent_as_given_witness :
  (Some ([] : list string) = None \/ Some ([] : list string) = Some [])
  /\ exists req,
      posts (snd (Demo.send_text_message example_clock (always accepted) plain_sender
                    "hello" (Some []) false initial_state))
      = posts initial_state ++ [req]
      /\ req_json req !! "msg_type" = Some (JStr "text")
      /\ req_json req !! "content" = Some (JObj [("text", JStr "hello")]).
Proof.
  split; [right; reflexivity|].
  exact (text_without_users_is_sent_as_given example_clock (always accepted) plain_sender
           "hello" (Some []) false initial_state (or_intror eq_refl)).
Defined.

(** ** The feed filter, entry by entry *)

Lemma datetime_of_parsed_utc t p : datetime_of_parsed t = Ok p -> tzinfo p = UTC.
Proof.
  unfold datetime_of_parsed, datetime_new. destruct t as [t|]; [|discriminate].
  repeat match goal with
         | |- context [if ?b then _ else _] => destruct b; [discriminate|]
         end.
  intros H. injection H as <-. reflexivity.
Qed.

Lemma as_utc_aware wm : exists o, tzinfo (as_utc wm) = Some o.
Proof.
  unfold as_utc. destruct (tzinfo wm) as [o|] eqn:H; [exists o; exact H|].
  exists 0. reflexivity.
Qed.

Lemma dt_gt_aware a b oa ob :
  tzinfo a = Some oa -> tzinfo b = Some ob -> exists r, dt_gt a b = Ok r.
Proof.
  intros Ha Hb. unfold dt_gt, dt_cmp. rewrite Ha, Hb.
  destruct (oa =? ob);
    [destruct (cmp_tuple (fields a) (fields b))
    |destruct (wall_micros a - wall_micros b + (ob - oa) * 1000000 ?= 0)];
    eexists; reflexivity.
Qed.

(** The run of the loop on a first entry that returns a list: the entry has
    a link, it is in the sent set or its date is readable, and the rest of
    the feed is run from some list. *)
Lemma for_entries_cons_ok astz e rest wm l debug acc s ns s' :
  PaperBot.for_entries astz (e :: rest) wm l debug acc s = (Ok ns, s') ->
  exists lk xs,
    link e = Some lk
    /\ heap s !! l = Some (OSet xs)
    /\ (default lk (feed_id e) ∈ xs \/ exists p, published_time e = Some p)
    /\ exists acc', PaperBot.for_entries astz rest wm l debug acc' s = (Ok ns, s').
Proof.
  intros H. cbn [PaperBot.for_entries] in H.
  unfold PaperBot.entry_get_id, PaperBot.debug_entry, getattr, set_contains, lift,
    bind, ret, raise in H.
  destruct (link e) as [lk|] eqn:Hlink; cbv beta iota zeta in H; [|discriminate].
  destruct (heap s !! l) as [[d|xs]|] eqn:Hset; cbv beta iota zeta in H;
    [discriminate| |discriminate].
  exists lk, xs. split; [reflexivity|]. split; [reflexivity|].
  replace (match feed_id e with Some i => i | None => lk end)
    with (default lk (feed_id e)) in H by (destruct (feed_id e); reflexivity).
  destruct (bool_decide (default lk (feed_id e) ∈ xs)) eqn:Hseen; cbv beta iota zeta in H.
  { apply bool_decide_eq_true in Hseen. split; [left; exact Hseen|]. eauto. }
  destruct (published_parsed e) as [t|] eqn:Hparsed; cbv beta iota zeta in H;
    [|discriminate].
  destruct (datetime_of_parsed t) as [published|] eqn:Hdt; cbv beta iota zeta in H;
    [|discriminate].
  split.
  { right. exists published. unfold published_time. rewrite Hparsed, Hdt. reflexivity. }
  match type of H with
  | (let (_, _) := ?m s in _) = _ =>
      assert (Hdbg : m s = (Ok tt, s) \/ exists e0, m s = (Raise e0, s))
  end.
  { destruct debug; [|left; reflexivity].
    destruct (title e); [|right; eexists; reflexivity].
    destruct (astz published); [|right; eexists; reflexivity].
    destruct (dt_gt published wm); [left|right; eexists]; reflexivity. }
  destruct Hdbg as [Hdbg|[e0 Hdbg]]; rewrite Hdbg in H; cbv beta iota zeta in H;
    [|discriminate].
  destruct (dt_gt published wm) as [[|]|]; cbv beta iota zeta in H;
    [|eauto|discriminate].
  destruct (title e) as [t'|]; cbv beta iota zeta in H; [|discriminate].
  destruct (summary e) as [c|]; cbv beta iota zeta in H; [|discriminate].
  eauto.
Qed.

Lemma for_entries_state astz entries wm l debug acc s r s' :
  PaperBot.for_entries astz entries wm l debug acc s = (r, s') -> s' = s.
Proof. intros H. apply for_entries_spec in H as [-> _]. reflexivity. Qed.

(** X11: an entry without a link makes the whole call fail, wherever it
    stands in the feed and even when it has an id of its own: no list is
    returned. *)
Theorem entry_without_link_fails_the_poll :
  forall (astz : datetime -> result datetime) (entries : list entry) (e : entry)
         (last_checked : datetime) (sent : loc) (debug : bool) (s : state),
    e ∈ entries -> link e = None ->
    forall ns,
      fst (PaperBot.get_new_notifications astz entries last_checked sent debug s) <> Ok ns.
Proof.
  intros astz entries e last_checked sent debug s Hin Hlink ns.
  unfold PaperBot.get_new_notifications. generalize (@nil notification) as acc.
  induction entries as [|e' rest IH]; intros acc; [inversion Hin|].
  intros Hok.
  destruct (PaperBot.for_entries astz (e' :: rest) _ sent debug acc s) as [r s'] eqn:Hrun.
  cbn [fst] in Hok. subst r.
  apply for_entries_cons_ok in Hrun as (lk & xs & Hlk & _ & _ & acc' & Hrest).
  apply elem_of_cons in Hin as [<-|Hin]; [congruence|].
  apply (IH Hin acc'). rewrite Hrest. reflexivity.
Qed.

Lemma entry_without_link_fails_the_poll_witness :
  no_link "b" ∈ [paper "a" (parsed 2024 12 23 9 30 0); no_link "b"]
  /\ link (no_link "b") = None
  /\ forall ns,
      fst (PaperBot.get_new_notifications no_overflow
             [paper "a" (parsed 2024 12 23 9 30 0); no_link "b"] reference 0%nat false
             sample_store)
      <> Ok ns.
Proof.
  assert (Hin : no_link "b" ∈ [paper "a" (parsed 2024 12 23 9 30 0); no_link "b"])
    by (right; left).
  split; [exact Hin|]. split; [reflexivity|].
  exact (entry_without_link_fails_the_poll no_overflow _ (no_link "b") reference 0%nat false
           sample_store Hin eq_refl).
Defined.

(** X12: an entry that is not in the sent set and whose date is missing,
    [None] or refused by [datetime] makes the whole call fail, whatever the
    other entries are. *)
Theorem unreadable_date_fails_the_poll :
  forall (astz : datetime -> result datetime) (entries : list entry) (e : entry)
         (i : string) (last_checked : datetime) (sent : loc) (xs : gset string)
         (debug : bool) (s : state),
    heap s !! sent = Some (OSet xs) ->
    e ∈ entries -> derived_id e = Some i -> i ∉ xs -> published_time e = None ->
    forall ns,
      fst (PaperBot.get_new_notifications astz entries last_checked sent debug s) <> Ok ns.
Proof.
  intros astz entries e i last_checked sent xs debug s Hset Hin Hid Hout Hdate ns.
  unfold PaperBot.get_new_notifications. generalize (@nil notification) as acc.
  induction entries as [|e' rest IH]; intros acc; [inversion Hin|].
  intros Hok.
  destruct (PaperBot.for_entries astz (e' :: rest) _ sent debug acc s) as [r s'] eqn:Hrun.
  cbn [fst] in Hok. subst r.
  apply for_entries_cons_ok in Hrun as (lk & xs' & Hlk & Hset' & Hcase & acc' & Hrest).
  apply elem_of_cons in Hin as [<-|Hin].
  - unfold derived_id in Hid. rewrite Hlk in Hid. simplify_eq.
    destruct Hcase as [Hseen|[p Hp]]; [contradiction|congruence].
  - apply (IH Hin acc'). rewrite Hrest. reflexivity.
Qed.

Lemma unreadable_date_fails_the_poll_witness :
  heap sample_store !! 0%nat = Some (OSet {[ "seen" ]})
  /\ paper "b" (Some None) ∈ [paper "a" (parsed 2024 12 23 9 30 0); paper "b" (Some None)]
  /\ derived_id (paper "b" (Some None)) = Some "b"
  /\ ("b" ∉ ({[ "seen" ]} : gset string))
  /\ published_time (paper "b" (Some None)) = None
  /\ forall ns,
      fst (PaperBot.get_new_notifications no_overflow
             [paper "a" (parsed 2024 12 23 9 30 0); paper "b" (Some None)] reference 0%nat
             false sample_store)
      <> Ok ns.
Proof.
  assert (Hin : paper "b" (Some None)
                ∈ [paper "a" (parsed 2024 12 23 9 30 0); paper "b" (Some None)])
    by (right; left).
  assert (Hout : "b" ∉ ({[ "seen" ]} : gset string))
    by (apply (bool_decide_unpack _); vm_compute; exact I).
  split; [reflexivity|]. split; [exact Hin|]. split; [reflexivity|].
  split; [exact Hout|]. split; [reflexivity|].
  exact (unreadable_date_fails_the_poll no_overflow _ (paper "b" (Some None)) "b" reference
           0%nat {[ "seen" ]} false sample_store eq_refl Hin eq_refl Hout eq_refl).
Defined.

Lemma record_of_Some e n :
  record_of e = Some n ->
  exists lk t,
    link e = Some lk /\ n_id n = default lk (feed_id e)
    /\ title e = Some (n_title n) /\ summary e = Some (n_content n)
    /\ published_parsed e = Some t /\ datetime_of_parsed t = Ok (n_published n).
Proof.
  unfold record_of, derived_id, published_time.
  destruct (link e) as [lk|]; [|discriminate].
  destruct (title e) as [t|]; [|discriminate].
  destruct (summary e) as [c|]; [|discriminate].
  destruct (published_parsed e) as [pp|]; [|discriminate].
  destruct (datetime_of_parsed pp) as [p|] eqn:Hdt; [|discriminate].
  intros H. injection H as <-. exists lk, pp. cbn. auto 10.
Qed.

Lemma for_entries_well_formed astz entries wm l xs debug s :
  heap s !! l = Some (OSet xs) ->
  (exists o, tzinfo wm = Some o) ->
  Forall well_formed entries ->
  (debug = true ->
   forall e p, e ∈ entries -> published_time e = Some p -> exists d, astz p = Ok d) ->
  forall acc,
    PaperBot.for_entries astz entries wm l debug acc s
    = (Ok (acc ++ List.filter (is_new xs wm) (omap record_of entries)), s).
Proof.
  intros Hset [o Hwm] Hwf Hdebug.
  induction entries as [|e rest IH]; intros acc.
  - cbn. rewrite app_nil_r. reflexivity.
  - apply Forall_cons in Hwf as [[n Hn] Hwf].
    assert (IH' := IH Hwf (fun Hd e' p He' => Hdebug Hd e' p ltac:(right; exact He'))).
    clear IH.
    destruct (record_of_Some e n Hn) as (lk & t & Hlink & Hid & Htitle & Hsum & Hpp & Hdt).
    assert (Htz : tzinfo (n_published n) = UTC) by (eapply datetime_of_parsed_utc; eassumption).
    destruct (dt_gt_aware (n_published n) wm 0 o Htz Hwm) as [b Hgt].
    cbn [omap list_omap]. rewrite Hn. cbn [List.filter]. unfold is_new at 1. rewrite Hgt.
    cbn [PaperBot.for_entries].
    unfold PaperBot.entry_get_id, PaperBot.debug_entry, getattr, set_contains, lift,
      bind, ret, raise.
    rewrite Hlink; cbv beta iota zeta. rewrite Hset; cbv beta iota zeta.
    replace (match feed_id e with Some i => i | None => lk end) with (n_id n)
      by (rewrite Hid; destruct (feed_id e); reflexivity).
    destruct (decide (n_id n ∈ xs)) as [Hin|Hout].
    + rewrite (bool_decide_eq_true_2 _ Hin). cbv beta iota zeta.
      rewrite (bool_decide_eq_false_2 (n_id n ∉ xs)) by (intros H; exact (H Hin)).
      cbn [andb]. apply IH'.
    + rewrite (bool_decide_eq_false_2 _ Hout). cbv beta iota zeta.
      rewrite (bool_decide_eq_true_2 (n_id n ∉ xs) Hout). cbn [andb].
      rewrite Hpp; cbv beta iota zeta. rewrite Hdt; cbv beta iota zeta.
      match goal with
      | |- (let (_, _) := ?m s in _) = _ => assert (Hdbg : m s = (Ok tt, s))
      end.
      { destruct debug; [|reflexivity].
        destruct (Hdebug eq_refl e (n_published n)) as [d Hd].
        - left.
        - unfold published_time. rewrite Hpp, Hdt. reflexivity.
        - rewrite Htitle, Hd, Hgt. reflexivity. }
      rewrite Hdbg; cbv beta iota zeta. rewrite Hgt; cbv beta iota zeta.
      destruct b.
      * rewrite Htitle, Hsum; cbv beta iota zeta.
        rewrite IH'. rewrite <- app_assoc. destruct n; reflexivity.
      * apply IH'.
Qed.

(** X13: on a feed whose entries all have a link, a title, a summary and a
    date that [datetime] accepts, [get_new_notifications] returns, without
    raising, exactly the entries that are not in the sent set and are
    published strictly after the watermark, in feed order. *)
Theorem well_formed_feed_returns_exactly_the_new_entries :
  forall (astz : datetime -> result datetime) (entries : list entry)
         (last_checked : datetime) (sent : loc) (xs : gset string) (debug : bool)
         (s : state),
    heap s !! sent = Some (OSet xs) ->
    Forall well_formed entries ->
    (debug = true ->
     forall e p, e ∈ entries -> published_time e = Some p -> exists d, astz p = Ok d) ->
    PaperBot.get_new_notifications astz entries last_checked sent debug s
    = (Ok (List.filter (is_new xs (as_utc last_checked)) (omap record_of entries)), s).
Proof.
  intros astz entries last_checked sent xs debug s Hset Hwf Hdebug.
  unfold PaperBot.get_new_notifications. fold (as_utc last_checked).
  rewrite (for_entries_well_formed astz entries (as_utc last_checked) sent xs debug s
             Hset (as_utc_aware last_checked) Hwf Hdebug []).
  reflexivity.
Qed.

Lemma well_formed_feed_returns_exactly_the_new_entries_witness :
  heap sample_store !! 0%nat = Some (OSet {[ "seen" ]})
  /\ Forall well_formed sample_feed
  /\ PaperBot.get_new_notifications no_overflow sample_feed reference 0%nat false sample_store
     = (Ok (List.filter (is_new {[ "seen" ]} (as_utc reference)) (omap record_of sample_feed)),
        sample_store).
Proof.
  assert (Hwf : Forall well_formed sample_feed)
    by (repeat (apply Forall_cons; split; [eexists; reflexivity|]); constructor).
  split; [reflexivity|]. split; [exact Hwf|].
  exact (well_formed_feed_returns_exactly_the_new_entries no_overflow sample_feed reference
           0%nat {[ "seen" ]} false sample_store eq_refl Hwf
           (fun H => ltac:(discriminate H))).
Defined.

Lemma for_entries_debug astz entries wm l :
  forall acc s ns s',
    PaperBot.for_entries astz entries wm l true acc s = (Ok ns, s') ->
    PaperBot.for_entries astz entries wm l false acc s = (Ok ns, s').
Proof.
  induction entries as [|e rest IH]; intros acc s ns s'; [exact (fun H => H)|].
  cbn [PaperBot.for_entries].
  unfold PaperBot.entry_get_id, PaperBot.debug_entry, getattr, set_contains, lift,
    bind, ret, raise.
  destruct (link e) as [lk|]; cbv beta iota zeta; [|discriminate].
  destruct (heap s !! l) as [[d|xs]|]; cbv beta iota zeta; [discriminate| |discriminate].
  destruct (bool_decide (_ ∈ xs)); cbv beta iota zeta; [apply IH|].
  destruct (published_parsed e) as [t|]; cbv beta iota zeta; [|discriminate].
  destruct (datetime_of_parsed t) as [published|]; cbv beta iota zeta; [|discriminate].
  destruct (title e) as [t'|]; cbv beta iota zeta; [|discriminate].
  destruct (astz published) as [local|]; cbv beta iota zeta; [|discriminate].
  destruct (dt_gt published wm) as [[|]|]; cbv beta iota zeta; [|apply IH|discriminate].
  destruct (summary e) as [c|]; cbv beta iota zeta; [|discriminate].
  apply IH.
Qed.

(** X14: the debug flag does not change what is returned: whenever the call
    with [debug] on returns a list, the call with [debug] off returns the
    same list.  (The converse fails: the debug lines read the title and
    convert the date, and can raise.) *)
Theorem debug_returns_what_no_debug_returns :
  forall (astz : datetime -> result datetime) (entries : list entry)
         (last_checked : datetime) (sent : loc) (s : state)
         (ns : list notification) (s' : state),
    PaperBot.get_new_notifications astz entries last_checked sent true s = (Ok ns, s') ->
    PaperBot.get_new_notifications astz entries last_checked sent false s = (Ok ns, s').
Proof.
  intros astz entries last_checked sent s ns s'. unfold PaperBot.get_new_notifications.
  apply for_entries_debug.
Qed.

Lemma debug_returns_what_no_debug_returns_witness :
  PaperBot.get_new_notifications no_overflow sample_feed reference 0%nat true sample_store
  = (Ok [fresh_notification], sample_store)
  /\ PaperBot.get_new_notifications no_overflow sample_feed reference 0%nat false sample_store
     = (Ok [fresh_notification], sample_store).
Proof.
  split; [vm_compute; reflexivity|].
  exact (debug_returns_what_no_debug_returns no_overflow sample_feed reference 0%nat
           sample_store [fresh_notification] sample_store ltac:(vm_compute; reflexivity)).
Defined.

(** The debug lines can make the difference between a list and an
    exception. *)
Example debug_can_raise :
  fst (PaperBot.get_new_notifications end_of_time [paper "late" (parsed 9999 12 31 23 0 0)]
         reference 0%nat false sample_store)
  = Ok [{| n_title := "Paper late"; n_content := "abstract";
           n_published := at_utc 9999 12 31 23 0 0; n_id := "late" |}]
  /\ fst (PaperBot.get_new_notifications end_of_time
            [paper "late" (parsed 9999 12 31 23 0 0)] reference 0%nat true sample_store)
     = Raise (OverflowError "date value out of range").
Proof. split; vm_compute; reflexivity. Qed.

(** Polling a feed made of two parts is polling the first part, then the
    second part from the list found so far. *)
Lemma for_entries_app astz l1 l2 wm l debug :
  forall acc s,
    PaperBot.for_entries astz (l1 ++ l2) wm l debug acc s
    = bind (PaperBot.for_entries astz l1 wm l debug acc)
           (fun acc' => PaperBot.for_entries astz l2 wm l debug acc') s.
Proof.
  induction l1 as [|e rest IH]; intros acc s; [reflexivity|].
  cbn [app PaperBot.for_entries].
  unfold PaperBot.entry_get_id, PaperBot.debug_entry, getattr, set_contains, lift,
    bind, ret, raise.
  destruct (link e) as [lk|]; cbv beta iota zeta; [|reflexivity].
  destruct (heap s !! l) as [[d|xs]|]; cbv beta iota zeta; try reflexivity.
  destruct (bool_decide (_ ∈ xs)); cbv beta iota zeta; [apply IH|].
  destruct (published_parsed e) as [t|]; cbv beta iota zeta; [|reflexivity].
  destruct (datetime_of_parsed t) as [published|]; cbv beta iota zeta; [|reflexivity].
  destruct debug; cbv beta iota zeta.
  - destruct (title e) as [t'|]; cbv beta iota zeta; [|reflexivity].
    destruct (astz published) as [local|]; cbv beta iota zeta; [|reflexivity].
    destruct (dt_gt published wm) as [[|]|]; cbv beta iota zeta;
      [|apply IH|reflexivity].
    destruct (summary e) as [c|]; cbv beta iota zeta; [|reflexivity].
    apply IH.
  - destruct (dt_gt published wm) as [[|]|]; cbv beta iota zeta;
      [|apply IH|reflexivity].
    destruct (title e) as [t'|]; cbv beta iota zeta; [|reflexivity].
    destruct (summary e) as [c|]; cbv beta iota zeta; [|reflexivity].
    apply IH.
Qed.

Lemma for_entries_skip_sent astz e rest wm l debug xs i acc s :
  heap s !! l = Some (OSet xs) -> derived_id e = Some i -> i ∈ xs ->
  PaperBot.for_entries astz (e :: rest) wm l debug acc s
  = PaperBot.for_entries astz rest wm l debug acc s.
Proof.
  intros Hset Hid Hin. unfold derived_id in Hid.
  destruct (link e) as [lk|] eqn:Hlink; [|discriminate]. injection Hid as <-.
  cbn [PaperBot.for_entries].
  unfold PaperBot.entry_get_id, getattr, set_contains, bind, ret.
  rewrite Hlink; cbv beta iota zeta. rewrite Hset; cbv beta iota zeta.
  replace (match feed_id e with Some i => i | None => lk end)
    with (default lk (feed_id e)) by (destruct (feed_id e); reflexivity).
  rewrite (bool_decide_eq_true_2 _ Hin). reflexivity.
Qed.

(** X15: an entry whose id is in the sent set is passed over before
    anything else of it is read: taking it out of the feed, wherever it
    stands, changes neither the list returned nor the exception raised, even
    when its date, title or summary is missing. *)
Theorem sent_entry_can_be_dropped_from_the_feed :
  forall (astz : datetime -> result datetime) (before after : list entry) (e : entry)
         (i : string) (last_checked : datetime) (sent : loc) (xs : gset string)
         (debug : bool) (s : state),
    heap s !! sent = Some (OSet xs) ->
    derived_id e = Some i -> i ∈ xs ->
    PaperBot.get_new_notifications astz (before ++ e :: after) last_checked sent debug s
    = PaperBot.get_new_notifications astz (before ++ after) last_checked sent debug s.
Proof.
  intros astz before after e i last_checked sent xs debug s Hset Hid Hin.
  unfold PaperBot.get_new_notifications. rewrite !for_entries_app. unfold bind.
  destruct (PaperBot.for_entries astz before _ sent debug [] s) as [r s1] eqn:Hrun.
  apply for_entries_state in Hrun as ->.
  destruct r as [acc|err]; [|reflexivity].
  eapply for_entries_skip_sent; eassumption.
Qed.

Lemma sent_entry_can_be_dropped_from_the_feed_witness :
  heap sample_store !! 0%nat = Some (OSet {[ "seen" ]})
  /\ derived_id (paper "seen" None) = Some "seen"
  /\ ("seen" ∈ ({[ "seen" ]} : gset string))
  /\ PaperBot.get_new_notifications no_overflow
       ([paper "a" (parsed 2024 12 23 9 30 0)] ++ paper "seen" None
          :: [paper "b" (parsed 2024 12 23 9 30 0)]) reference 0%nat true sample_store
     = PaperBot.get_new_notifications no_overflow
         ([paper "a" (parsed 2024 12 23 9 30 0)] ++ [paper "b" (parsed 2024 12 23 9 30 0)])
         reference 0%nat true sample_store.
Proof.
  assert (Hin : "seen" ∈ ({[ "seen" ]} : gset string))
    by (apply elem_of_singleton; reflexivity).
  split; [reflexivity|]. split; [reflexivity|]. split; [exact Hin|].
  exact (sent_entry_can_be_dropped_from_the_feed no_overflow
           [paper "a" (parsed 2024 12 23 9 30 0)] [paper "b" (parsed 2024 12 23 9 30 0)]
           (paper "seen" None) "seen" reference 0%nat {[ "seen" ]} true sample_store
           eq_refl eq_refl Hin).
Defined.

(** X16: the notifications come in feed order: their ids are the ids of the
    feed with some left out.  A feed without a repeated id gives a list
    without a repeated id. *)
Theorem notifications_keep_the_feed_order :
  forall (astz : datetime -> result datetime) (entries : list entry)
         (last_checked : datetime) (sent : loc) (debug : bool)
         (s : state) (ns : list notification) (s' : state),
    PaperBot.get_new_notifications astz entries last_checked sent debug s = (Ok ns, s') ->
    map n_id ns `sublist_of` omap derived_id entries
    /\ (NoDup (omap derived_id entries) -> NoDup (map n_id ns)).
Proof.
  intros astz entries last_checked sent debug s ns s' H.
  apply get_new_notifications_spec in H as [_ Hns].
  destruct (Hns ns eq_refl) as [_ Hsub]. split; [exact Hsub|].
  intros Hnd. eapply sublist_NoDup; eassumption.
Qed.

Lemma notifications_keep_the_feed_order_witness :
  PaperBot.get_new_notifications no_overflow sample_feed reference 0%nat true sample_store
  = (Ok [fresh_notification], sample_store)
  /\ map n_id [fresh_notification] `sublist_of` omap derived_id sample_feed.
Proof.
  split; [vm_compute; reflexivity|].
  exact (proj1 (notifications_keep_the_feed_order no_overflow sample_feed reference 0%nat true
                  sample_store [fresh_notification] sample_store
                  ltac:(vm_compute; reflexivity))).
Defined.

(** ** The loop: what is sent, what is marked and what is posted *)

Section Cycle.

Variable time_time : nat -> Z.
Variable http : nat -> post_outcome.
Variable feed : nat -> list entry.
Variable utcnow : nat -> datetime.
Variable astz : datetime -> result datetime.
Variable strftime : datetime -> string.
Variable robot : FeishuRobotSender.
Variable debug : bool.

Abbreviation iteration := (PaperBot.iteration time_time http feed utcnow astz strftime robot debug).
Abbreviation loop n := (PaperBot.loop time_time http feed utcnow astz strftime n robot debug).
Abbreviation for_notifications := (PaperBot.for_notifications time_time http astz strftime robot).

Lemma delivery_unfold sent n rest s local :
  astz (n_published n) = Ok local ->
  for_notifications sent (n :: rest) s
  = match send_new time_time http robot
            {[ "msg_type" := JStr "interactive";
               "card" := PaperBot.make_card (n_title n) (n_content n) (strftime local) ]}
            {| heap := heap s; clock_reads := clock_reads s; posts := posts s;
               delivered := delivered s ++ [n_id n] |} with
    | (Ok _, s2) => (set_add sent (n_id n) ;; for_notifications sent rest) s2
    | (Raise e, s2) => (Raise e, s2)
    end.
Proof.
  intros Hastz. cbn [PaperBot.for_notifications]. unfold bind at 1, lift. rewrite Hastz.
  unfold bind at 1, PaperBot.note_delivery. unfold bind at 1.
  reflexivity.
Qed.

(** One delivery: the id is noted and a card is posted; then either the
    call raised, and the batch ends there with the set as it was, or the id
    is added to the set and the batch goes on.  With a caught outcome it
    goes on. *)
Lemma delivery_step sent xs n rest s local :
  heap s !! sent = Some (OSet xs) ->
  astz (n_published n) = Ok local ->
  exists s2 req,
    heap s2 !! sent = Some (OSet xs)
    /\ delivered s2 = delivered s ++ [n_id n]
    /\ posts s2 = posts s ++ [req]
    /\ req_url req = webhook_url robot
    /\ req_json req !! "msg_type" = Some (JStr "interactive")
    /\ (no_secret robot = true -> unsigned req)
    /\ ((exists e, for_notifications sent (n :: rest) s = (Raise e, s2)
                   /\ ~ caught (http (length (posts s))))
        \/ for_notifications sent (n :: rest) s
           = for_notifications sent rest
               (set_heap (<[sent := OSet ({[n_id n]} ∪ xs)]> (heap s2)) s2))
    /\ (caught (http (length (posts s))) ->
        for_notifications sent (n :: rest) s
        = for_notifications sent rest
            (set_heap (<[sent := OSet ({[n_id n]} ∪ xs)]> (heap s2)) s2)).
Proof.
  intros Hset Hastz.
  assert (Hlt : (sent < length (heap s))%nat) by (eapply lookup_lt_Some; eassumption).
  rewrite (delivery_unfold sent n rest s local Hastz).
  match goal with
  | |- context [send_new _ _ _ ?d ?s1] =>
      destruct (send_new_run time_time http robot d s1)
        as (sp & rp & s2 & Hrun & Hheap & Hposts & Hdel & Hno & Hkeys & Hok)
  end.
  rewrite Hrun. cbn [heap delivered posts] in Hheap, Hdel, Hposts, Hok.
  assert (Hset2 : heap s2 !! sent = Some (OSet xs))
    by (rewrite Hheap, lookup_app_l by assumption; exact Hset).
  exists s2. eexists. split; [exact Hset2|]. split; [exact Hdel|]. split; [exact Hposts|].
  cbn [req_url req_json]. split; [reflexivity|]. split.
  { rewrite lookup_union_r by (apply Hkeys; discriminate). reflexivity. }
  split.
  { intros Hsec. rewrite (Hno Hsec), (left_id_L ∅ (∪)). split; reflexivity. }
  destruct rp as [reply|e].
  - assert (E : (set_add sent (n_id n) ;; for_notifications sent rest) s2
                = for_notifications sent rest
                    (set_heap (<[sent := OSet ({[n_id n]} ∪ xs)]> (heap s2)) s2))
      by (unfold bind at 1, set_add; rewrite Hset2; reflexivity).
    split; [right; exact E|intros _; exact E].
  - assert (Hnot : ~ caught (http (length (posts s))))
      by (intros Hc; destruct (Hok Hc) as [reply Hreply]; discriminate Hreply).
    split; [left; exists e; split; [reflexivity|exact Hnot]|].
    intros Hc. contradiction.
Qed.

Section Invariant.

Variable sent : loc.
Variable P : gset string -> state -> Prop.

(** [P] is kept by a delivery that is carried through... *)
Hypothesis P_marked :
  forall s xs n s1 req,
    P xs s -> heap s !! sent = Some (OSet xs) ->
    heap s1 !! sent = Some (OSet ({[n_id n]} ∪ xs)) ->
    delivered s1 = delivered s ++ [n_id n] ->
    posts s1 = posts s ++ [req] ->
    req_url req = webhook_url robot ->
    req_json req !! "msg_type" = Some (JStr "interactive") ->
    (no_secret robot = true -> unsigned req) ->
    P ({[n_id n]} ∪ xs) s1.

(** ... and by one that ends with an exception of [send_card_message]. *)
Hypothesis P_raised :
  forall s xs n s1 req,
    P xs s -> heap s !! sent = Some (OSet xs) ->
    heap s1 !! sent = Some (OSet xs) ->
    delivered s1 = delivered s ++ [n_id n] ->
    posts s1 = posts s ++ [req] ->
    req_url req = webhook_url robot ->
    req_json req !! "msg_type" = Some (JStr "interactive") ->
    (no_secret robot = true -> unsigned req) ->
    ~ caught (http (length (posts s))) ->
    P xs s1.

(** Then [P] holds when the deliveries stop, normally or on an exception. *)
Lemma for_notifications_inv :
  forall ns s xs r s',
    P xs s -> heap s !! sent = Some (OSet xs) ->
    for_notifications sent ns s = (r, s') ->
    exists xs', heap s' !! sent = Some (OSet xs') /\ P xs' s'.
Proof.
  induction ns as [|n rest IH]; intros s xs r s' HP Hset H.
  - cbn in H. unfold ret in H. simplify_eq. eauto.
  - destruct (astz (n_published n)) as [local|] eqn:Hastz.
    + destruct (delivery_step sent xs n rest s local Hset Hastz)
        as (s2 & req & Hset2 & Hdel & Hposts & Hurl & Hmsg & Hno & Hcases & _).
      assert (Hlt : (sent < length (heap s2))%nat) by (eapply lookup_lt_Some; eassumption).
      destruct Hcases as [(e & Hrun & Hnot)|Hrun]; rewrite Hrun in H.
      * simplify_eq. exists xs. split; [exact Hset2|]. eapply P_raised; eassumption.
      * eapply IH; [| |exact H].
        -- eapply (P_marked s xs n _ req HP Hset); cbn [heap delivered posts set_heap];
             try eassumption.
           apply list_lookup_insert_eq. exact Hlt.
        -- cbn [heap set_heap]. apply list_lookup_insert_eq. exact Hlt.
    + cbn [PaperBot.for_notifications] in H. unfold bind at 1, lift in H.
      rewrite Hastz in H. simplify_eq. eauto.
Qed.

Lemma iteration_inv v s xs :
  PaperBot.sent_entries v = sent ->
  P xs s -> heap s !! sent = Some (OSet xs) ->
  exists xs',
    heap (snd (iteration v s)) !! sent = Some (OSet xs') /\ P xs' (snd (iteration v s)).
Proof.
  intros Hv HP Hset. unfold PaperBot.iteration, try_except.
  destruct (PaperBot.poll_and_notify _ _ _ _ _ _ _ _ s) as [r s'] eqn:H.
  assert (Hs' : exists xs', heap s' !! sent = Some (OSet xs') /\ P xs' s').
  { unfold PaperBot.poll_and_notify, bind in H.
    destruct (PaperBot.get_new_notifications _ _ _ _ _ s) as [r0 s0] eqn:Hget.
    apply get_new_notifications_spec in Hget as [-> _].
    destruct r0 as [ns|e]; [|simplify_eq; eauto].
    assert (Hrun : for_notifications sent ns s = (r, s')).
    { rewrite <- Hv. destruct ns; [|exact H]. cbn. exact H. }
    eapply for_notifications_inv; eassumption. }
  destruct r; exact Hs'.
Qed.

Lemma loop_inv :
  forall n v s xs,
    PaperBot.sent_entries v = sent ->
    P xs s -> heap s !! sent = Some (OSet xs) ->
    exists xs',
      heap (snd (loop n v s)) !! sent = Some (OSet xs') /\ P xs' (snd (loop n v s)).
Proof.
  induction n as [|n IH]; intros v s xs Hv HP Hset; [cbn; eauto|].
  cbn [PaperBot.loop].
  pose proof (iteration_locals time_time http feed utcnow astz strftime robot debug v s) as Hl.
  destruct (iteration_inv v s xs Hv HP Hset) as (xs1 & Hset1 & HP1).
  destruct (iteration v s) as [v' s1]. cbn [fst snd] in Hl, Hset1, HP1. subst v'.
  match goal with
  | |- context [PaperBot.loop _ _ _ _ _ _ _ _ _ ?v' _] =>
      apply (IH v' s1 xs1); [exact Hv|exact HP1|exact Hset1]
  end.
Qed.

End Invariant.

(** All deliveries go through when no conversion to Shanghai time overflows
    and every outcome is caught. *)
Lemma for_notifications_run sent :
  (forall k, caught (http k)) ->
  forall ns s xs,
    heap s !! sent = Some (OSet xs) ->
    (forall n, n ∈ ns -> exists d, astz (n_published n) = Ok d) ->
    exists s',
      for_notifications sent ns s = (Ok tt, s')
      /\ delivered s' = delivered s ++ map n_id ns
      /\ heap s' !! sent = Some (OSet (list_to_set (map n_id ns) ∪ xs))
      /\ length (posts s') = (length (posts s) + length ns)%nat.
Proof.
  intros Hcaught. induction ns as [|n rest IH]; intros s xs Hset Hastz.
  - exists s. cbn [map list_to_set length]. rewrite app_nil_r, (left_id_L ∅ (∪)).
    repeat split; [exact Hset|lia].
  - destruct (Hastz n ltac:(left)) as [local Hlocal].
    destruct (delivery_step sent xs n rest s local Hset Hlocal)
      as (s2 & req & Hset2 & Hdel & Hposts & _ & _ & _ & _ & Hgo).
    assert (Hlt : (sent < length (heap s2))%nat) by (eapply lookup_lt_Some; eassumption).
    destruct (IH (set_heap (<[sent := OSet ({[n_id n]} ∪ xs)]> (heap s2)) s2)
                ({[n_id n]} ∪ xs)
                ltac:(cbn [heap set_heap]; apply list_lookup_insert_eq; exact Hlt)
                (fun m Hm => Hastz m ltac:(right; exact Hm)))
      as (s' & Hrest & Hdel' & Hset' & Hlen).
    cbn [delivered posts set_heap] in Hdel', Hlen.
    exists s'. rewrite (Hgo (Hcaught _)). split; [exact Hrest|]. split; [|split].
    + rewrite Hdel', Hdel, <- app_assoc. reflexivity.
    + rewrite Hset'. do 2 f_equal. cbn [map list_to_set].
      rewrite (assoc_L (∪)), (comm_L (∪) (list_to_set _) {[n_id n]}). reflexivity.
    + rewrite Hlen, Hposts, length_app. cbn [length]. lia.
Qed.

Lemma record_of_published e n : record_of e = Some n -> published_time e = Some (n_published n).
Proof.
  unfold record_of. destruct (derived_id e), (title e), (summary e), (published_time e);
    try discriminate.
  intros H. injection H as <-. reflexivity.
Qed.


End Cycle.



(** X18: [main] posts one request for each delivery and nothing else; every
    one goes to the webhook of the command line, is an interactive card and
    carries no signature, since [main] builds its sender without a
    secret. *)
Theorem main_posts_one_unsigned_card_per_delivery :
  forall (time_time : nat -> Z) (http : nat -> post_outcome) (feed : nat -> list entry)
         (utcnow : nat -> datetime) (astz : datetime -> result datetime)
         (strftime : datetime -> string) (webhook : string) (debug : bool)
         (reference_utc : datetime) (n : nat) (s : state),
    delivered s = [] -> posts s = [] ->
    length (posts (snd (PaperBot.main time_time http feed utcnow astz strftime webhook debug
                          reference_utc n s)))
    = length (delivered (snd (PaperBot.main time_time http feed utcnow astz strftime webhook
                                debug reference_utc n s)))
    /\ Forall (card_post webhook)
         (posts (snd (PaperBot.main time_time http feed utcnow astz strftime webhook debug
                        reference_utc n s))).
Proof.
  intros time_time http feed utcnow astz strftime webhook debug reference_utc n s Hd Hp.
  unfold PaperBot.main, new_set.
  set (P := fun (_ : gset string) (st : state) =>
              length (posts st) = length (delivered st)
              /\ Forall (card_post webhook) (posts st)).
  assert (Hstep : forall (st s1 : state) (id : string) (req : request),
             length (posts st) = length (delivered st)
             /\ Forall (card_post webhook) (posts st) ->
             delivered s1 = delivered st ++ [id] ->
             posts s1 = posts st ++ [req] ->
             req_url req = webhook ->
             req_json req !! "msg_type" = Some (JStr "interactive") ->
             unsigned req ->
             length (posts s1) = length (delivered s1)
             /\ Forall (card_post webhook) (posts s1)).
  { intros st s1 id req [Hlen Hall] Hdel Hposts Hurl Hmsg Hno.
    rewrite Hposts, Hdel, !length_app, Hlen. split; [reflexivity|].
    apply Forall_app. split; [exact Hall|].
    apply Forall_singleton. split; [exact Hurl|]. split; [exact Hno|exact Hmsg]. }
  match goal with
  | |- context [PaperBot.loop _ _ _ _ _ _ _ ?robot _ ?v ?s0] =>
      destruct (loop_inv time_time http feed utcnow astz strftime robot debug
                  (length (heap s)) P
                  ltac:(intros st xs m s1 req HP _ _ Hdel Hposts Hurl Hmsg Hno;
                        exact (Hstep st s1 _ req HP Hdel Hposts Hurl Hmsg (Hno eq_refl)))
                  ltac:(intros st xs m s1 req HP _ _ Hdel Hposts Hurl Hmsg Hno _;
                        exact (Hstep st s1 _ req HP Hdel Hposts Hurl Hmsg (Hno eq_refl)))
                  n v s0 ∅ eq_refl)
        as (xs' & _ & Hres)
  end.
  - unfold P. cbn [delivered posts set_heap]. rewrite Hd, Hp.
    split; [reflexivity|constructor].
  - cbn [heap set_heap]. apply list_lookup_middle. reflexivity.
  - exact Hres.
Qed.

Lemma main_posts_one_unsigned_card_per_delivery_witness :
  delivered initial_state = [] /\ posts initial_state = []
  /\ length (posts (snd (PaperBot.main example_clock failing distinct_feed stopped_clock
                           no_overflow beijing hook false reference 2 initial_state)))
     = length (delivered (snd (PaperBot.main example_clock failing distinct_feed stopped_clock
                                 no_overflow beijing hook false reference 2 initial_state))).
Proof.
  split; [reflexivity|]. split; [reflexivity|].
  exact (proj1 (main_posts_one_unsigned_card_per_delivery example_clock failing distinct_feed
                  stopped_clock no_overflow beijing hook false reference 2 initial_state
                  eq_refl eq_refl)).
Defined.

(** X19: one cycle on a feed whose entries are all well formed, when no
    conversion to Shanghai time overflows and no call of
    [send_card_message] raises (every exception of the POST and of the
    decoding of its answer is a [requests.RequestException]): exactly the
    entries that are not sent yet and are published strictly after the
    watermark are delivered, in feed order, each by one POST, and their ids
    are added to the set of sent ids, also when the endpoint refuses
    them. *)
Theorem cycle_delivers_exactly_the_new_entries :
  forall (time_time : nat -> Z) (http : nat -> post_outcome) (feed : nat -> list entry)
         (utcnow : nat -> datetime) (astz : datetime -> result datetime)
         (strftime : datetime -> string) (robot : FeishuRobotSender) (debug : bool)
         (v : PaperBot.locals) (s : state) (xs : gset string),
    heap s !! PaperBot.sent_entries v = Some (OSet xs) ->
    Forall well_formed (feed (PaperBot.cycles v)) ->
    (forall e p, e ∈ feed (PaperBot.cycles v) -> published_time e = Some p ->
                 exists d, astz p = Ok d) ->
    (forall k, caught (http k)) ->
    delivered (snd (PaperBot.iteration time_time http feed utcnow astz strftime robot debug
                      v s))
    = delivered s
      ++ map n_id (List.filter (is_new xs (as_utc (PaperBot.last_checked v)))
                     (omap record_of (feed (PaperBot.cycles v))))
    /\ heap (snd (PaperBot.iteration time_time http feed utcnow astz strftime robot debug
                    v s)) !! PaperBot.sent_entries v
       = Some (OSet (list_to_set
                       (map n_id (List.filter (is_new xs (as_utc (PaperBot.last_checked v)))
                                    (omap record_of (feed (PaperBot.cycles v)))))
                     ∪ xs))
    /\ length (posts (snd (PaperBot.iteration time_time http feed utcnow astz strftime robot
                             debug v s)))
       = (length (posts s)
          + length (List.filter (is_new xs (as_utc (PaperBot.last_checked v)))
                      (omap record_of (feed (PaperBot.cycles v)))))%nat.
Proof.
  intros time_time http feed utcnow astz strftime robot debug v s xs Hset Hwf Hastz Hcaught.
  set (new := List.filter _ _).
  assert (Hnew : forall n, n ∈ new -> exists d, astz (n_published n) = Ok d).
  { intros n Hn. apply list_elem_of_In, filter_In in Hn as [Hn _].
    apply list_elem_of_In, list_elem_of_omap in Hn as (e & He & Hrec).
    apply (Hastz e _ He). apply record_of_published. exact Hrec. }
  destruct (for_notifications_run time_time http astz strftime robot
              (PaperBot.sent_entries v) Hcaught new s xs Hset Hnew)
    as (s' & Hrun & Hdel & Hset' & Hlen).
  assert (Hit : snd (PaperBot.iteration time_time http feed utcnow astz strftime robot debug
                      v s) = s').
  { unfold PaperBot.iteration, try_except, PaperBot.poll_and_notify, bind,
      PaperBot.get_new_notifications.
    fold (as_utc (PaperBot.last_checked v)).
    rewrite (for_entries_well_formed astz _ (as_utc (PaperBot.last_checked v)) _ xs debug s
               Hset (as_utc_aware _) Hwf (fun _ => Hastz) []).
    cbn [app]. fold new.
    replace (match new with
             | [] => ret tt
             | _ :: _ =>
                 PaperBot.for_notifications time_time http astz strftime robot
                   (PaperBot.sent_entries v) new
             end s)
      with (PaperBot.for_notifications time_time http astz strftime robot
              (PaperBot.sent_entries v) new s)
      by (destruct new; reflexivity).
    rewrite Hrun. reflexivity. }
  rewrite Hit. auto.
Qed.

Lemma cycle_delivers_exactly_the_new_entries_witness :
  heap sample_store !! PaperBot.sent_entries first_cycle = Some (OSet {[ "seen" ]})
  /\ Forall well_formed sample_feed
  /\ (forall e p, e ∈ sample_feed -> published_time e = Some p ->
                  exists d, no_overflow p = Ok d)
  /\ (forall k, caught (failing k))
  /\ delivered (snd (PaperBot.iteration example_clock failing (fun _ => sample_feed)
                       stopped_clock no_overflow beijing plain_sender false first_cycle
                       sample_store))
     = delivered sample_store
       ++ map n_id (List.filter (is_new {[ "seen" ]} (as_utc reference))
                      (omap record_of sample_feed)).
Proof.
  assert (Hwf : Forall well_formed sample_feed)
    by (repeat (apply Forall_cons; split; [eexists; reflexivity|]); constructor).
  assert (Hconv : forall e p, e ∈ sample_feed -> published_time e = Some p ->
                              exists d, no_overflow p = Ok d)
    by (intros e p _ _; eexists; reflexivity).
  assert (Hcaught : forall k, caught (failing k)) by (intros k; reflexivity).
  split; [reflexivity|]. split; [exact Hwf|]. split; [exact Hconv|]. split; [exact Hcaught|].
  exact (proj1 (cycle_delivers_exactly_the_new_entries example_clock failing
                  (fun _ => sample_feed) stopped_clock no_overflow beijing plain_sender false
                  first_cycle sample_store {[ "seen" ]} eq_refl Hwf Hconv Hcaught)).
Defined.

Example sample_cycle_delivers_fresh :
  delivered (snd (PaperBot.iteration example_clock failing (fun _ => sample_feed)
                    stopped_clock no_overflow beijing plain_sender false first_cycle
                    sample_store))
  = ["fresh"].
Proof. vm_compute. reflexivity. Qed.

(** X20: when no call of [send_card_message] raises, the deliveries of a
    batch stop at the first notification whose conversion to Shanghai time
    raises: the exception is passed on, the notifications before it are
    delivered and marked as sent, that one and the ones after it are neither
    delivered nor marked. *)
Theorem batch_stops_at_the_first_overflow :
  forall (time_time : nat -> Z) (http : nat -> post_outcome)
         (astz : datetime -> result datetime) (strftime : datetime -> string)
         (robot : FeishuRobotSender) (sent : loc) (xs : gset string)
         (before after : list notification) (n : notification) (e0 : exn) (s : state),
    heap s !! sent = Some (OSet xs) ->
    (forall m, m ∈ before -> exists d, astz (n_published m) = Ok d) ->
    astz (n_published n) = Raise e0 ->
    (forall k, caught (http k)) ->
    exists s',
      PaperBot.for_notifications time_time http astz strftime robot sent
        (before ++ n :: after) s = (Raise e0, s')
      /\ delivered s' = delivered s ++ map n_id before
      /\ heap s' !! sent = Some (OSet (list_to_set (map n_id before) ∪ xs))
      /\ length (posts s') = (length (posts s) + length before)%nat.
Proof.
  intros time_time http astz strftime robot sent xs before after n e0 s Hset Hconv Hfail
    Hcaught.
  revert s xs Hset. induction before as [|m rest IH]; intros s xs Hset.
  - exists s. cbn [app PaperBot.for_notifications]. unfold bind at 1, lift. rewrite Hfail.
    cbn [map list_to_set length]. rewrite app_nil_r, (left_id_L ∅ (∪)).
    repeat split; [exact Hset|lia].
  - destruct (Hconv m ltac:(left)) as [local Hlocal].
    destruct (delivery_step time_time http astz strftime robot sent xs m
                (rest ++ n :: after) s local Hset Hlocal)
      as (s2 & req & Hset2 & Hdel & Hposts & _ & _ & _ & _ & Hgo).
    assert (Hlt : (sent < length (heap s2))%nat) by (eapply lookup_lt_Some; eassumption).
    destruct (IH (fun k Hk => Hconv k ltac:(right; exact Hk))
                (set_heap (<[sent := OSet ({[n_id m]} ∪ xs)]> (heap s2)) s2)
                ({[n_id m]} ∪ xs)
                ltac:(cbn [heap set_heap]; apply list_lookup_insert_eq; exact Hlt))
      as (s' & Hrest & Hdel' & Hset' & Hlen).
    cbn [delivered posts set_heap] in Hdel', Hlen.
    exists s'. cbn [app]. rewrite (Hgo (Hcaught _)). split; [exact Hrest|]. split; [|split].
    + rewrite Hdel', Hdel, <- app_assoc. reflexivity.
    + rewrite Hset'. do 2 f_equal. cbn [map list_to_set].
      rewrite (assoc_L (∪)), (comm_L (∪) (list_to_set _) {[n_id m]}). reflexivity.
    + rewrite Hlen, Hposts, length_app. cbn [length]. lia.
Qed.

Lemma batch_stops_at_the_first_overflow_witness :
  heap sample_store !! 0%nat = Some (OSet {[ "seen" ]})
  /\ (forall m, m ∈ [note "a" reference] -> exists d, end_of_time (n_published m) = Ok d)
  /\ end_of_time (n_published (note "late" (at_utc 9999 12 31 23 0 0)))
     = Raise (OverflowError "date value out of range")
  /\ (forall k, caught (always accepted k))
  /\ exists s',
      PaperBot.for_notifications example_clock (always accepted) end_of_time beijing
        plain_sender 0%nat
        ([note "a" reference] ++ note "late" (at_utc 9999 12 31 23 0 0)
           :: [note "b" reference]) sample_store
      = (Raise (OverflowError "date value out of range"), s')
      /\ delivered s' = delivered sample_store ++ map n_id [note "a" reference].
Proof.
  assert (Hconv : forall m, m ∈ [note "a" reference] ->
                            exists d, end_of_time (n_published m) = Ok d).
  { intros m Hm. apply list_elem_of_singleton in Hm. subst m. eexists; reflexivity. }
  assert (Hcaught : forall k, caught (always accepted k))
    by (intros k; right; intros e He; discriminate He).
  split; [reflexivity|]. split; [exact Hconv|]. split; [reflexivity|].
  split; [exact Hcaught|].
  destruct (batch_stops_at_the_first_overflow example_clock (always accepted) end_of_time
              beijing plain_sender 0%nat {[ "seen" ]} [note "a" reference]
              [note "b" reference] (note "late" (at_utc 9999 12 31 23 0 0))
              (OverflowError "date value out of range") sample_store eq_refl Hconv eq_refl
              Hcaught)
    as (s' & Hrun & Hdel & _).
  exists s'. split; [exact Hrun|exact Hdel].
Defined.
